(** * pyznap.pyzfs: a shallow embedding of the ZFS bindings

    The module [pyznap/pyzfs.py] drives the [zfs] command line tool: it
    builds argument vectors, hands them to [check_output] (module
    [pyznap.process]) and reads the tabular answer back.  The embedding
    below follows the Python text function by function.

    - Python strings are [string], the bytes of their UTF-8 encoding
      (one byte per character for ASCII text).
    - Python [int] is [Z].
    - [None]-or-value attributes and arguments are [option].
    - Dictionaries keyed by strings are [gmap string _].
    - The external world reached through [check_output] is an oracle
      together with the log of every argument vector issued so far;
      exceptions are values of [exn] threaded through a state-and-error
      monad. *)

From Stdlib Require Import Ascii String ZArith List Bool Lia.
From stdpp Require Import gmap strings list pretty.

Local Open Scope string_scope.
Local Open Scope list_scope.
Local Open Scope Z_scope.

(** ** Python built-ins used by the module *)

Module Py.

(** Truth value of a string: only the empty string is false. *)
Definition truthy_str (s : string) : bool :=
  match s with EmptyString => false | String _ _ => true end.

(** Truth value of a list: only the empty list is false. *)
Definition truthy_list {A} (l : list A) : bool :=
  match l with [] => false | _ :: _ => true end.

(** Truth value of an attribute that is [None] or an object. *)
Definition truthy_obj {A} (o : option A) : bool :=
  match o with None => false | Some _ => true end.

(** Truth value of an attribute that is [None] or a list. *)
Definition truthy_optlist {A} (o : option (list A)) : bool :=
  match o with None => false | Some l => truthy_list l end.

(** [sep.join(l)]. *)
Definition join (sep : string) (l : list string) : string :=
  String.concat sep l.

(** [s.split(c)] for a one-character separator: the result is never
    empty, and [''.split(c) = ['']]. *)
Fixpoint split (c : ascii) (s : string) : list string :=
  match s with
  | EmptyString => [EmptyString]
  | String a r =>
      if Ascii.eqb a c then EmptyString :: split c r
      else match split c r with
           | [] => [String a EmptyString]
           | h :: t => String a h :: t
           end
  end.

(** [l[-1]], raising [IndexError] (here [None]) on the empty list. *)
Definition last_item {A} (l : list A) : option A := List.last (map Some l) None.

(** [str(n)] and ['{:d}'.format(n)] for an [int]. *)
Definition str_int (n : Z) : string := pretty n.

(** The blanks [int()] skips at both ends of ASCII text: tab, line
    feed, vertical tab, form feed, carriage return and space. *)
Definition is_space (a : ascii) : bool :=
  let n := Z.of_N (N_of_ascii a) in
  ((9 <=? n) && (n <=? 13)) || (n =? 32).

Definition digit_val (a : ascii) : option Z :=
  let n := Z.of_N (N_of_ascii a) in
  if (48 <=? n) && (n <=? 57) then Some (n - 48) else None.

Fixpoint lstrip (s : string) : string :=
  match s with
  | EmptyString => EmptyString
  | String a r => if is_space a then lstrip r else s
  end.

Definition rev_string (s : string) : string :=
  string_of_list_ascii (rev (list_ascii_of_string s)).

Definition strip (s : string) : string :=
  rev_string (lstrip (rev_string (lstrip s))).

(** Decimal digits with single underscores allowed between digits;
    [prev] tells whether the previous character was a digit. *)
Fixpoint digits (acc : Z) (prev : bool) (s : string) : option Z :=
  match s with
  | EmptyString => if prev then Some acc else None
  | String a r =>
      match digit_val a with
      | Some d => digits (10 * acc + d) true r
      | None =>
          if Ascii.eqb a "_"%char && prev then digits acc false r else None
      end
  end.

(** The value of a byte. *)
Definition byte (a : ascii) : Z := Z.of_N (N_of_ascii a).

(** A code point that a sequence of the given least value may encode:
    not an overlong form, not a surrogate, not beyond the last code
    point. *)
Definition scalar (least cp : Z) : bool :=
  (least <=? cp) && (cp <=? 1114111)
  && negb ((55296 <=? cp) && (cp <=? 57343)).

(** The code points of UTF-8 text, read byte by byte: [pending] bytes
    of the current character are still to come, [acc] holds its bits
    so far and [least] the least code point its length may encode.
    [None] for bytes that are no UTF-8. *)
Fixpoint decode_from (pending : nat) (acc least : Z) (s : string)
  : option (list Z) :=
  match s with
  | EmptyString => match pending with O => Some [] | S _ => None end
  | String a r =>
      let b := byte a in
      match pending with
      | O =>
          if b <? 128 then option_map (cons b) (decode_from 0 0 0 r)
          else if (192 <=? b) && (b <? 224) then decode_from 1 (b - 192) 128 r
          else if (224 <=? b) && (b <? 240) then decode_from 2 (b - 224) 2048 r
          else if (240 <=? b) && (b <? 248) then decode_from 3 (b - 240) 65536 r
          else None
      | S k =>
          if (128 <=? b) && (b <? 192)
          then
            let cp := acc * 64 + (b - 128) in
            match k with
            | O =>
                if scalar least cp
                then option_map (cons cp) (decode_from 0 0 0 r)
                else None
            | S _ => decode_from k cp least r
            end
          else None
      end
  end.

Definition decode (s : string) : option (list Z) := decode_from 0 0 0 s.

(** The characters outside ASCII that [int()] takes for blanks. *)
Definition unicode_space (cp : Z) : bool :=
  (cp =? 133) || (cp =? 160) || (cp =? 5760)
  || ((8192 <=? cp) && (cp <=? 8202))
  || (cp =? 8232) || (cp =? 8233) || (cp =? 8239) || (cp =? 8287)
  || (cp =? 12288).

(** The zero of every run of ten decimal digits (Unicode 14.0, the
    data of CPython 3.11); the other nine follow it in order. *)
Definition decimal_zeros : list Z :=
  [
   48; 1632; 1776; 1984; 2406; 2534; 2662; 2790;
   2918; 3046; 3174; 3302; 3430; 3558; 3664; 3792;
   3872; 4160; 4240; 6112; 6160; 6470; 6608; 6784;
   6800; 6992; 7088; 7232; 7248; 42528; 43216; 43264;
   43472; 43504; 43600; 44016; 65296; 66720; 68912; 69734;
   69872; 69942; 70096; 70384; 70736; 70864; 71248; 71360;
   71472; 71904; 72016; 72784; 73040; 73120; 92768; 92864;
   93008; 120782; 120792; 120802; 120812; 120822; 123200; 123632;
   125264; 130032
  ].

(** The value of a character as a decimal digit, if it is one. *)
Definition to_decimal (cp : Z) : option Z :=
  match List.find (fun z => (z <=? cp) && (cp <? z + 10)) decimal_zeros with
  | Some z => Some (cp - z)
  | None => None
  end.

Definition ascii_of_cp (cp : Z) : ascii := ascii_of_N (Z.to_N cp).

(** What [int()] makes of the characters before it parses: characters
    below 127 stay, other blanks become a space, other decimal digits
    become the ASCII digit, and anything else cannot be parsed. *)
Fixpoint to_ascii_digits (cps : list Z) : option string :=
  match cps with
  | [] => Some EmptyString
  | cp :: r =>
      if cp <? 127 then option_map (String (ascii_of_cp cp)) (to_ascii_digits r)
      else if unicode_space cp
      then option_map (String " "%char) (to_ascii_digits r)
      else match to_decimal cp with
           | Some d => option_map (String (ascii_of_cp (48 + d))) (to_ascii_digits r)
           | None => None
           end
  end.

Definition to_ascii (s : string) : option string :=
  match decode s with
  | Some cps => to_ascii_digits cps
  | None => None
  end.

(** The number of decimal digits in ASCII text. *)
Definition digit_count (s : string) : nat :=
  length (filter (fun a => truthy_obj (digit_val a)) (list_ascii_of_string s)).

(** [sys.int_max_str_digits], the interpreter's default. *)
Definition max_str_digits : nat := 4300.

(** Digits within the limit of [max_str_digits]. *)
Definition limited_digits (r : string) : option Z :=
  if (digit_count r <=? max_str_digits)%nat then digits 0 false r else None.

(** [int(s)] in base ten; [None] stands for [ValueError].  Blanks are
    skipped at both ends, one sign may come first, the digits may be
    separated by single underscores, and more than [max_str_digits]
    digits are refused. *)
Definition int (s : string) : option Z :=
  match to_ascii s with
  | None => None
  | Some t =>
      match strip t with
      | String "-"%char r => option_map Z.opp (limited_digits r)
      | String "+"%char r => limited_digits r
      | r => limited_digits r
      end
  end.

(** The text of a list of byte values. *)
Definition of_bytes (l : list Z) : string :=
  string_of_list_ascii (map ascii_of_cp l).

(** Characters that [shlex.quote] leaves alone: word characters and
    [@%+=:,./-]. *)
Definition is_safe (a : ascii) : bool :=
  let n := Z.of_N (N_of_ascii a) in
  ((48 <=? n) && (n <=? 57)) || ((65 <=? n) && (n <=? 90))
  || ((97 <=? n) && (n <=? 122))
  || existsb (Ascii.eqb a) (list_ascii_of_string "_@%+=:,./-").

Definition squote : string := "'".
Definition dquote : string := String (ascii_of_nat 34) EmptyString.

(** [s.replace("'", "'\"'\"'")]. *)
Fixpoint escape_squotes (s : string) : string :=
  match s with
  | EmptyString => EmptyString
  | String a r =>
      if Ascii.eqb a "'"%char
      then squote +:+ dquote +:+ squote +:+ dquote +:+ squote +:+ escape_squotes r
      else String a (escape_squotes r)
  end.

(** [shlex.quote]. *)
Definition quote (s : string) : string :=
  if negb (truthy_str s) then "''"
  else if forallb is_safe (list_ascii_of_string s) then s
  else squote +:+ escape_squotes s +:+ squote.

(** [c in s] for a one-character [c]. *)
Definition contains (c : ascii) (s : string) : bool :=
  existsb (Ascii.eqb c) (list_ascii_of_string s).

(** The split of [s] at the last [c]: [None] when [c] does not occur. *)
Fixpoint rsplit1 (c : ascii) (s : string) : option (string * string) :=
  match s with
  | EmptyString => None
  | String a r =>
      match rsplit1 c r with
      | Some (h, t) => Some (String a h, t)
      | None => if Ascii.eqb a c then Some (EmptyString, r) else None
      end
  end.

(** [s.rpartition(c)]: head, separator and tail around the last [c],
    or two empty strings and [s]. *)
Definition rpartition (c : ascii) (s : string) : string * string * string :=
  match rsplit1 c s with
  | Some (h, t) => (h, String c EmptyString, t)
  | None => (EmptyString, EmptyString, s)
  end.

(** [l[0]], [None] standing for [IndexError]. *)
Definition first_item {A} (l : list A) : option A := head l.

End Py.

Example split_comma : Py.split ","%char "a,b,,c" = ["a"; "b"; ""; "c"].
Proof. reflexivity. Qed.

Example split_empty : Py.split ","%char "" = [""].
Proof. reflexivity. Qed.

Example int_plain : Py.int "12345" = Some 12345.
Proof. reflexivity. Qed.

Example int_signed : Py.int "-5" = Some (-5).
Proof. reflexivity. Qed.

Example int_underscore : Py.int "1_000" = Some 1000.
Proof. reflexivity. Qed.

Example int_bad :
  Py.int "" = None /\ Py.int "12a" = None /\ Py.int "_1" = None
  /\ Py.int "1__0" = None /\ Py.int "1_" = None /\ Py.int "-" = None.
Proof. repeat split; reflexivity. Qed.

Example int_control_bytes :
  Py.int (Py.of_bytes [28; 53]) = None /\ Py.int (Py.of_bytes [53; 31]) = None
  /\ Py.int (Py.of_bytes [11; 53; 12]) = Some 5
  /\ Py.int (Py.of_bytes [127; 53]) = None.
Proof. repeat split; reflexivity. Qed.

(** A no-break space, Arabic-Indic digits, an ideographic space and a
    mathematical bold zero, as UTF-8. *)
Example int_beyond_ascii :
  Py.int (Py.of_bytes [53; 194; 160]) = Some 5
  /\ Py.int (Py.of_bytes [45; 217; 163]) = Some (-3)
  /\ Py.int (Py.of_bytes [217; 163; 95; 217; 164]) = Some 34
  /\ Py.int (Py.of_bytes [227; 128; 128; 53; 32]) = Some 5
  /\ Py.int (Py.of_bytes [240; 157; 159; 142]) = Some 0
  /\ Py.int (Py.of_bytes [53; 194; 178]) = None
  /\ Py.int (Py.of_bytes [53; 195; 169]) = None
  /\ Py.int (Py.of_bytes [49; 194; 160; 50]) = None
  /\ Py.int (Py.of_bytes [194; 160]) = None.
Proof. repeat split; reflexivity. Qed.

Example int_digit_limit :
  Py.truthy_obj (Py.int (string_of_list_ascii (repeat "1"%char 4300))) = true
  /\ Py.int (string_of_list_ascii (repeat "1"%char 4301)) = None
  /\ Py.int (string_of_list_ascii (repeat "0"%char 4301)) = None
  /\ Py.truthy_obj
       (Py.int (String "-"%char (string_of_list_ascii (repeat "1"%char 4300))))
     = true.
Proof. repeat split; vm_compute; reflexivity. Qed.

Example quote_plain : Py.quote "tank/fs@snap-1" = "tank/fs@snap-1".
Proof. reflexivity. Qed.

Example quote_space : Py.quote "tank/my fs" = "'tank/my fs'".
Proof. reflexivity. Qed.

(** ** Exceptions, endpoints and the external world *)

(** The exceptions the module can raise or let through.  The first
    three are the ones [stream_size] catches; [OtherError] stands for
    anything else [check_output] may raise. *)
Inductive exn : Type :=
| DatasetNotFoundError
| DatasetBusyError
| CalledProcessError
| OperationNotAllowedError
| AttributeError
| KeyError
| IndexError
| TypeError
| ValueError
| OtherError (msg : string).

Inductive result (A : Type) : Type :=
| Ok (a : A)
| Raise (e : exn).
Arguments Ok {A} a.
Arguments Raise {A} e.

(** The remote-shell object ([pyznap.ssh.SSH]) as far as this module
    reads it: the command prefix, the negotiated compression and
    decompression vectors, and the remote [mbuffer] / [pv] command
    builders, each of which is [None] when the tool is missing. *)
Record SSH : Type := mkSSH {
  user : string;
  host : string;
  cmd : list string;
  compress : option (list string);
  decompress : option (list string);
  mbuffer : option (Z -> list string);
  pv : option (Z -> list string)
}.

(** Output of [check_output]: one list of fields per line. *)
Abbreviation table := (list (list string)).

(** One invocation of [check_output(cmd, ssh=ssh)]. *)
Record call : Type := Call { call_ssh : option SSH; call_argv : list string }.

(** The world outside the process: what the tool answers to a call,
    given everything issued before, and the calls issued so far. *)
Record World : Type := mkWorld {
  oracle : list call -> call -> result table;
  log : list call
}.

(** State-and-error monad over the world. *)
Definition M (A : Type) : Type := World -> result A * World.

Definition ret {A} (a : A) : M A := fun w => (Ok a, w).

Definition raise {A} (e : exn) : M A := fun w => (Raise e, w).

Definition bind {A B} (m : M A) (k : A -> M B) : M B :=
  fun w =>
    match m w with
    | (Ok a, w') => k a w'
    | (Raise e, w') => (Raise e, w')
    end.

Notation "'let*' x ':=' m 'in' k" := (bind m (fun x => k))
  (at level 10, x pattern, m at level 100, k at level 200).

(** Lifting of a pure lookup that may raise. *)
Definition lift {A} (r : result A) : M A := fun w => (r, w).

Definition or_raise {A} (e : exn) (o : option A) : result A :=
  match o with Some a => Ok a | None => Raise e end.

Fixpoint mapM {A B} (f : A -> M B) (l : list A) : M (list B) :=
  match l with
  | [] => ret []
  | a :: r => let* b := f a in let* bs := mapM f r in ret (b :: bs)
  end.

(** [pyznap.process.check_output]: runs the command and returns the
    parsed table or raises.  The call is appended to the log whatever
    the answer. *)
Definition check_output (argv : list string) (ssh : option SSH) : M table :=
  fun w =>
    let c := Call ssh argv in
    (oracle w (log w) c, mkWorld (oracle w) (log w ++ [c])).

(** Number of external invocations so far. *)
Definition invocations (w : World) : nat := length (log w).

(** ** Module-level constants *)

Definition SHELL : list string := ["sh"; "-c"].

(** What the module found when it was imported ([exists('mbuffer')],
    [exists('pv')]) and whether standard output is a terminal. *)
Record Local : Type := mkLocal {
  exists_mbuffer : bool;
  exists_pv : bool;
  isatty : bool
}.

Definition MBUFFER (env : Local) : option (Z -> list string) :=
  if exists_mbuffer env
  then Some (fun mem => ["mbuffer"; "-q"; "-s"; "128K"; "-m"; Py.str_int mem +:+ "M"])
  else None.

Definition PV (env : Local) : option (Z -> list string) :=
  if exists_pv env
  then Some (fun size => ["pv"; "-f"; "-w"; "100"; "-s"; Py.str_int size])
  else None.

(** ** Dataset objects *)

(** The three classes derived from [ZFSDataset]. *)
Inductive kind : Type := Filesystem | Volume | Snapshot.

(** A dataset object: its class, and the attributes [name] and [ssh]. *)
Record entity : Type := Entity {
  cls : kind;
  name : string;
  ssh : option SSH
}.

(** ** Listing and property queries *)

(** The depth flags shared by [find] and [findprops]. *)
Definition depth_flags (max_depth : option Z) : result (list string) :=
  match max_depth with
  | None => Ok ["-r"]
  | Some d => if 0 <=? d then Ok ["-d"; Py.str_int d] else Raise TypeError
  end.

Definition opt_flag (flag : string) (l : list string) : list string :=
  if Py.truthy_list l then [flag; Py.join "," l] else [].

Definition opt_path (path : option string) : list string :=
  match path with
  | Some p => if Py.truthy_str p then [p] else []
  | None => []
  end.

(** The dictionary [findprops] returns: name, then property, to
    (value, source). *)
Abbreviation propdict := (gmap string (gmap string (string * string))).

Definition has_four (row : list string) : bool :=
  match row with _ :: _ :: _ :: _ :: _ => true | _ => false end.

Definition add_row (d : propdict) (row : list string) : propdict :=
  match row with
  | n :: p :: v :: s :: _ => <[n := <[p := (v, s)]> (default ∅ (d !! n))]> d
  | _ => d
  end.

(** The nested comprehension at the end of [findprops]: every row is
    indexed up to its fourth field, later rows of the same name and
    property overwrite earlier ones. *)
Definition props_of_table (out : table) : result propdict :=
  if forallb has_four out then Ok (fold_left add_row out ∅)
  else Raise IndexError.

Definition findprops (path : option string) (ssh : option SSH)
    (max_depth : option Z) (props sources types : list string) : M propdict :=
  let* depth := lift (depth_flags max_depth) in
  let argv := ["zfs"; "get"; "-H"; "-p"] ++ depth
              ++ opt_flag "-t" types ++ opt_flag "-s" sources
              ++ [Py.join "," props] ++ opt_path path in
  let* out := check_output argv ssh in
  lift (props_of_table out).

(** The class chosen by [open] for a type string. *)
Definition kind_of_type (type : string) : result kind :=
  if String.eqb type "volume" then Ok Volume
  else if String.eqb type "filesystem" then Ok Filesystem
  else if String.eqb type "snapshot" then Ok Snapshot
  else Raise ValueError.

(** Factory function [open]. *)
Definition open (name : string) (ssh : option SSH) (type : option string)
  : M entity :=
  let* type :=
    match type with
    | Some t => ret t
    | None =>
        let* d := findprops (Some name) ssh (Some 0) ["type"] [] [] in
        let* props := lift (or_raise KeyError (d !! name)) in
        let* vs := lift (or_raise KeyError (props !! "type")) in
        ret (fst vs)
    end in
  let* k := lift (kind_of_type type) in
  ret (Entity k name ssh).

(** A row of [find]'s output unpacks into exactly [name, type]. *)
Definition open_row (ssh : option SSH) (row : list string) : M entity :=
  match row with
  | [n; t] => open n ssh (Some t)
  | _ => raise ValueError
  end.

Definition find (path : option string) (ssh : option SSH)
    (max_depth : option Z) (types : list string) : M (list entity) :=
  let* depth := lift (depth_flags max_depth) in
  let argv := ["zfs"; "list"; "-H"] ++ depth ++ opt_flag "-t" types
              ++ ["-o"; "name,type"] ++ opt_path path in
  let* out := check_output argv ssh in
  mapM (open_row ssh) out.

(** ** Comparison of values of different Python types

    [ZFSSnapshot.clones] compares a list with a string.  Two values of
    different types are never equal. *)
Inductive pyval : Type :=
| PStr (s : string)
| PList (l : list string).

Definition py_eq (a b : pyval) : bool :=
  match a, b with
  | PStr x, PStr y => bool_decide (x = y)
  | PList x, PList y => bool_decide (x = y)
  | _, _ => false
  end.

(** ** class ZFSDataset *)

Module ZFSDataset.

Definition __str__ (self : entity) : string :=
  match ssh self with
  | Some s => user s +:+ "@" +:+ host s +:+ ":" +:+ name self
  | None => name self
  end.

(** [getprop]: the (value, source) pair of one property, [None] when
    the answer has no such property for this name. *)
Definition getprop (self : entity) (prop : string)
  : M (option (string * string)) :=
  let* d := findprops (Some (name self)) (ssh self) (Some 0) [prop] [] [] in
  let* props := lift (or_raise KeyError (d !! name self)) in
  ret (props !! prop).

(** [getpropval]: indexing [None] raises [TypeError]; the value ['-']
    is replaced by [default]. *)
Definition getpropval (self : entity) (prop : string)
    (default : option string) : M (option string) :=
  let* p := getprop self prop in
  let* value := lift (or_raise TypeError (option_map fst p)) in
  ret (if bool_decide (value = "-") then default else Some value).

Definition guid (self : entity) : M (option string) :=
  getpropval self "guid" None.

(** [__eq__]: the left operand's guid is fetched first; [value] is
    whatever stands on the right of [==], [None] included, and
    [None] has no method [guid]. *)
Definition __eq__ (self : entity) (value : option entity) : M bool :=
  let* a := guid self in
  match value with
  | None => raise AttributeError
  | Some v => let* b := guid v in ret (bool_decide (a = b))
  end.

Definition filesystems (self : entity) (max_depth : option Z)
  : M (list entity) :=
  let* l := find (Some (name self)) (ssh self) max_depth ["filesystem"] in
  ret (tail l).

Definition volumes (self : entity) (max_depth : option Z)
  : M (list entity) :=
  find (Some (name self)) (ssh self) max_depth ["volume"].

Definition snapshots (self : entity) (max_depth : option Z)
  : M (list entity) :=
  find (Some (name self)) (ssh self) max_depth ["snapshot"].

Definition children (self : entity) (max_depth : option Z)
  : M (list entity) :=
  let* l := find (Some (name self)) (ssh self) max_depth ["all"] in
  ret (tail l).

(** [snapshot]: [props] holds the items of the dictionary with the
    values already converted by [str]. *)
Definition snapshot (self : entity) (snapname : string) (recursive : bool)
    (props : list (string * string)) : M entity :=
  let cmd := ["zfs"; "snapshot"] ++ (if recursive then ["-r"] else [])
             ++ flat_map (fun pv => ["-o"; fst pv +:+ "=" +:+ snd pv]) props in
  let name' := name self +:+ "@" +:+ snapname in
  let* _ := check_output (cmd ++ [name']) (ssh self) in
  ret (Entity Snapshot name' (ssh self)).

(** [origin]: the dataset named by the property when it is set and
    non-empty, [None] otherwise. *)
Definition origin (self : entity) : M (option entity) :=
  let* origin := getpropval self "origin" None in
  match origin with
  | Some o =>
      if Py.truthy_str o
      then let* d := open o (ssh self) None in ret (Some d)
      else ret None
  | None => ret None
  end.

(** [promote].  The test [self.origin() == None] is [None == None]
    when there is no origin and [origin.__eq__(None)] when there is
    one. *)
Definition promote (self : entity) : M unit :=
  let* o := origin self in
  let* no_origin :=
    match o with
    | None => ret true
    | Some d => __eq__ d None
    end in
  if no_origin then ret tt
  else
    let* _ := check_output ["zfs"; "promote"; name self] (ssh self) in
    ret tt.

(** [parent]: the dataset named by what precedes the last [/], or
    [None] for a name without one. *)
Definition parent (self : entity) : M (option entity) :=
  let '(parent_name, _, _) := Py.rpartition "/"%char (name self) in
  if Py.truthy_str parent_name
  then let* d := open parent_name (ssh self) None in ret (Some d)
  else ret None.

(** The words of [destroy]. *)
Definition destroy_cmd (self : entity)
    (defer children dependents force_unmount : bool) : list string :=
  ["zfs"; "destroy"; "-v"]
  ++ match cls self with
     | Snapshot => if defer then ["-d"] else []
     | _ => if force_unmount then ["-f"] else []
     end
  ++ (if children then ["-r"] else [])
  ++ (if dependents then ["-R"] else [])
  ++ [name self].

Definition destroy (self : entity)
    (defer children dependents force_unmount : bool) : M unit :=
  let* _ := check_output
              (destroy_cmd self defer children dependents force_unmount)
              (ssh self) in
  ret tt.

(** The snapshot [rollback] names: [snapname] is the text
    [str(snapname)]; a text without [@] gets the dataset's name in
    front. *)
Definition rollback_target (self : entity) (snapname : string) : string :=
  let snap := Py.split "@"%char snapname in
  let snap := if (length snap =? 1)%nat then name self :: snap else snap in
  Py.join "@" snap.

Definition rollback (self : entity) (snapname : string)
    (destroy_newer destroy_clones force_unmount : bool) : M unit :=
  let cmd := ["zfs"; "rollback"]
             ++ (if destroy_newer then ["-r"] else [])
             ++ (if destroy_clones then ["-R"] else [])
             ++ (if force_unmount then ["-f"] else []) in
  let* _ := check_output (cmd ++ [rollback_target self snapname]) (ssh self) in
  ret tt.

(** The new name [rename] passes to the tool. *)
Definition rename_target (self : entity) (name' : string) : string :=
  match cls self with
  | Snapshot =>
      default "" (Py.first_item (Py.split "@"%char (name self)))
      +:+ "@" +:+ name'
  | _ => name'
  end.

(** [rename]: [-p] is for datasets other than snapshots; the argument
    [recursive] is not read.  The new handle is opened by name. *)
Definition rename (self : entity) (name' : string)
    (recursive force_parent force_unmount : bool) : M entity :=
  let cmd := ["zfs"; "rename"]
             ++ match cls self with
                | Snapshot => []
                | _ => if force_parent then ["-p"] else []
                end
             ++ (if force_unmount then ["-f"] else [])
             ++ [name self] in
  let target := rename_target self name' in
  let* _ := check_output (cmd ++ [target]) (ssh self) in
  open target (ssh self) None.

(** [getprops]: every property of the dataset. *)
Definition getprops (self : entity) : M (gmap string (string * string)) :=
  let* d := findprops (Some (name self)) (ssh self) (Some 0) ["all"] [] [] in
  lift (or_raise KeyError (d !! name self)).

(** [setprop]: [value] is the text [str(value)]. *)
Definition setprop (self : entity) (prop value : string) : M unit :=
  let* _ := check_output ["zfs"; "set"; prop +:+ "=" +:+ value; name self]
              (ssh self) in
  ret tt.

Definition delprop (self : entity) (prop : string) (recursive : bool) : M unit :=
  let* _ := check_output
              (["zfs"; "inherit"] ++ (if recursive then ["-r"] else [])
               ++ [prop; name self])
              (ssh self) in
  ret tt.

End ZFSDataset.

(** ** class ZFSVolume(ZFSDataset) *)

Module ZFSVolume.

Definition filesystems (self : entity) (max_depth : option Z)
  : M (list entity) :=
  raise OperationNotAllowedError.

Definition volumes (self : entity) (max_depth : option Z)
  : M (list entity) :=
  raise OperationNotAllowedError.

End ZFSVolume.

(** ** class ZFSSnapshot(ZFSDataset) *)

(** The attribute [stream_cache] of a snapshot object: [None] until the
    first call of [stream_size] creates it. *)
Abbreviation attrs := (option (gmap string Z)).

(** [1024**2]. *)
Definition MiB : Z := 1024 ^ 2.

(** [min(max(stream_size // 1024**2, 1), 256 if remote else 512)]. *)
Definition mbuff_size (stream_size : Z) (remote : bool) : Z :=
  Z.min (Z.max (stream_size / MiB) 1) (if remote then 256 else 512).

Module ZFSSnapshot.

Definition snapname (self : entity) : string :=
  default "" (Py.last_item (Py.split "@"%char (name self))).

Definition snapshots (self : entity) (max_depth : option Z)
  : M (list entity) :=
  raise OperationNotAllowedError.

Definition snapshot (self : entity) (snapname : string) (recursive : bool)
    (props : list (string * string)) : M entity :=
  raise OperationNotAllowedError.

(** [clones]: [split] is called on whatever [getpropval] returned;
    the test [clones == ''] compares the list with a string. *)
Definition clones (self : entity) : M (list entity) :=
  let* value := ZFSDataset.getpropval self "clones" None in
  let* s := lift (or_raise AttributeError value) in
  let clones := Py.split ","%char s in
  if py_eq (PList clones) (PStr "") then ret []
  else mapM (fun clone => open clone (ssh self) None) clones.

(** [str(base)], the key of the cache. *)
Definition base_key (base : option entity) : string :=
  match base with
  | None => "None"
  | Some b => ZFSDataset.__str__ b
  end.

(** The exceptions named in the first [except] clause. *)
Definition caught (e : exn) : bool :=
  match e with
  | DatasetNotFoundError | DatasetBusyError | CalledProcessError => true
  | _ => false
  end.

(** [int(out[-1][-1].split(' ')[-1])]. *)
Definition parse_size (out : table) : result Z :=
  match Py.last_item out with
  | None => Raise IndexError
  | Some row =>
      match Py.last_item row with
      | None => Raise IndexError
      | Some field =>
          match Py.last_item (Py.split " "%char field) with
          | None => Raise IndexError
          | Some tok => or_raise ValueError (Py.int tok)
          end
      end
  end.

(** The dry-run command. *)
Definition size_cmd (self : entity) (base : option entity) : list string :=
  ["zfs"; "send"; "-nvP"]
  ++ match base with Some b => ["-I"; name b] | None => [] end
  ++ [name self].

(** The body of [stream_size] below the cache test, run with the
    cache dictionary [c] in place. *)
Definition estimate (self : entity) (base : option entity)
    (c : gmap string Z) (w : World) : result Z * attrs * World :=
  match check_output (size_cmd self base) (ssh self) w with
  | (Raise e, w') =>
      if caught e then (Ok 0, Some c, w') else (Raise e, Some c, w')
  | (Ok out, w') =>
      match parse_size out with
      | Ok size => (Ok size, Some (<[base_key base := size]> c), w')
      | Raise _ => (Ok 0, Some c, w')
      end
  end.

(** [stream_size]: a first call on a fresh object creates the empty
    cache; a later call returns the stored value, or stores [0] under
    the key before running the command. *)
Definition stream_size (self : entity) (base : option entity)
    (a : attrs) (w : World) : result Z * attrs * World :=
  match a with
  | None => estimate self base ∅ w
  | Some c =>
      match c !! base_key base with
      | Some size => (Ok size, Some c, w)
      | None => estimate self base (<[base_key base := 0]> c) w
      end
  end.

(** The variable [compress] of [send]. *)
Definition send_compress (self_ssh ssh_dest : option SSH)
  : option (list string) :=
  match self_ssh, ssh_dest with
  | Some s, Some d =>
      if bool_decide (compress s = compress d) then compress s else None
  | Some s, None => compress s
  | None, Some d => compress d
  | None, None => None
  end.

(** The [zfs send] command proper. *)
Definition send_zfs (self : entity) (base : option entity)
    (intermediates replicate properties deduplicate raw : bool)
  : list string :=
  ["zfs"; "send"]
  ++ (if replicate then ["-R"] else [])
  ++ (if properties then ["-p"] else [])
  ++ (if deduplicate then ["-D"] else [])
  ++ (if raw then ["-w"] else [])
  ++ match base with
     | Some b => [if intermediates then "-I" else "-i"; Py.quote (name b)]
     | None => []
     end
  ++ [Py.quote (name self)].

(** [pv_cmd]: the progress command, widened when standard output is
    not a terminal. *)
Definition pv_cmd (env : Local) (pv : Z -> list string) (stream_size : Z)
  : list string :=
  pv stream_size ++ (if isatty env then [] else ["-D"; "60"; "-i"; "60"]).

(** The list [cmd] of [send] just before it is joined: the words of
    the shell pipeline. *)
Definition send_words (env : Local) (self : entity) (ssh_dest : option SSH)
    (base : option entity)
    (intermediates replicate properties deduplicate raw : bool)
    (stream_size : Z) : list string :=
  let mbuff_size :=
    mbuff_size stream_size (Py.truthy_obj (ssh self) || Py.truthy_obj ssh_dest) in
  let '(mbuffer, pv) :=
    match ssh self with
    | Some s => (mbuffer s, pv s)
    | None => (MBUFFER env, PV env)
    end in
  let compress := send_compress (ssh self) ssh_dest in
  let cmd := send_zfs self base intermediates replicate properties deduplicate raw in
  let cmd :=
    match mbuffer with
    | Some mbuffer =>
        if MiB <=? stream_size then cmd ++ ["|"] ++ mbuffer mbuff_size else cmd
    | None => cmd
    end in
  let cmd :=
    match pv with
    | Some pv =>
        if MiB <=? stream_size then cmd ++ ["|"] ++ pv_cmd env pv stream_size
        else cmd
    | None => cmd
    end in
  let cmd :=
    if Py.truthy_optlist compress && negb raw
    then cmd ++ ["|"] ++ default [] compress
    else cmd in
  cmd.

(** The argument vector handed to [Popen]. *)
Definition send_argv (env : Local) (self : entity) (ssh_dest : option SSH)
    (base : option entity)
    (intermediates replicate properties deduplicate raw : bool)
    (stream_size : Z) : list string :=
  let shell := match ssh self with Some s => cmd s | None => SHELL end in
  shell ++ [Py.join " " (send_words env self ssh_dest base intermediates
                           replicate properties deduplicate raw stream_size)].

(** [send]: estimates the size, then builds the command; the result
    is the argument vector of the process it starts. *)
Definition send (env : Local) (self : entity) (ssh_dest : option SSH)
    (base : option entity)
    (intermediates replicate properties deduplicate raw : bool)
    (a : attrs) (w : World) : result (list string) * attrs * World :=
  match stream_size self base a w with
  | (Ok size, a', w') =>
      (Ok (send_argv env self ssh_dest base intermediates replicate
             properties deduplicate raw size), a', w')
  | (Raise e, a', w') => (Raise e, a', w')
  end.

(** [parent] of a snapshot: the dataset named by what precedes the
    first [@]. *)
Definition parent (self : entity) : M entity :=
  let parent_path := default "" (Py.first_item (Py.split "@"%char (name self))) in
  open parent_path (ssh self) None.

(** [clone]: [props] holds the items of the dictionary with the values
    already converted by [str]. *)
Definition clone (self : entity) (name' : string)
    (props : list (string * string)) (force_parent : bool) : M unit :=
  let cmd := ["zfs"; "clone"] ++ (if force_parent then ["-p"] else [])
             ++ flat_map (fun pv => ["-o"; fst pv +:+ "=" +:+ snd pv]) props in
  let* _ := check_output (cmd ++ [name self; name']) (ssh self) in
  ret tt.

Definition hold (self : entity) (tag : string) (recursive : bool) : M unit :=
  let* _ := check_output
              (["zfs"; "hold"] ++ (if recursive then ["-r"] else [])
               ++ [tag; name self])
              (ssh self) in
  ret tt.

(** [[hold[1] for hold in out]]: the second field of every line, or
    [IndexError] at a line that has none. *)
Fixpoint second_fields (out : table) : result (list string) :=
  match out with
  | [] => Ok []
  | row :: rest =>
      match row with
      | _ :: tag :: _ =>
          match second_fields rest with
          | Ok tags => Ok (tag :: tags)
          | Raise e => Raise e
          end
      | _ => Raise IndexError
      end
  end.

Definition holds (self : entity) : M (list string) :=
  let* out := check_output ["zfs"; "holds"; "-H"; name self] (ssh self) in
  lift (second_fields out).

Definition release (self : entity) (tag : string) (recursive : bool) : M unit :=
  let* _ := check_output
              (["zfs"; "release"] ++ (if recursive then ["-r"] else [])
               ++ [tag; name self])
              (ssh self) in
  ret tt.

End ZFSSnapshot.

(** ** Module-level [receive] *)

(** The variable [decompress] of [receive]. *)
Definition receive_decompress (ssh_source ssh : option SSH)
  : option (list string) :=
  match ssh_source, ssh with
  | Some s, Some d =>
      if bool_decide (decompress s = decompress d) then decompress s else None
  | Some s, None => decompress s
  | None, Some d => decompress d
  | None, None => None
  end.

(** The [zfs receive] command proper. *)
Definition receive_zfs (name : string)
    (append_name append_path force nomount : bool) : list string :=
  ["zfs"; "receive"]
  ++ (if append_name then ["-e"] else if append_path then ["-d"] else [])
  ++ (if force then ["-F"] else [])
  ++ (if nomount then ["-u"] else [])
  ++ [Py.quote name].

(** The list [cmd] of [receive] just before it is joined. *)
Definition receive_words (env : Local) (name : string)
    (ssh ssh_source : option SSH)
    (append_name append_path force nomount : bool)
    (stream_size : Z) (raw : bool) : list string :=
  let mbuff_size :=
    mbuff_size stream_size (Py.truthy_obj ssh_source || Py.truthy_obj ssh) in
  let mbuffer :=
    match ssh with
    | Some s => mbuffer s
    | None => MBUFFER env
    end in
  let decompress := receive_decompress ssh_source ssh in
  let cmd := receive_zfs name append_name append_path force nomount in
  let cmd :=
    if Py.truthy_optlist decompress && negb raw
    then default [] decompress ++ ["|"] ++ cmd
    else cmd in
  let cmd :=
    match mbuffer with
    | Some mbuffer =>
        if (Py.truthy_obj ssh_source || Py.truthy_obj ssh) && (MiB <=? stream_size)
        then mbuffer mbuff_size ++ ["|"] ++ cmd
        else cmd
    | None => cmd
    end in
  cmd.

(** [receive]: the argument vector of the process it starts (the
    [stdin] handle plays no part in building it). *)
Definition receive (env : Local) (name : string)
    (ssh ssh_source : option SSH)
    (append_name append_path force nomount : bool)
    (stream_size : Z) (raw : bool) : list string :=
  let shell := match ssh with Some s => cmd s | None => SHELL end in
  shell ++ [Py.join " " (receive_words env name ssh ssh_source append_name
                           append_path force nomount stream_size raw)].

(** ** Method resolution

    A call [obj.method(...)] runs the subclass's definition when the
    subclass overrides it. *)

Definition filesystems (self : entity) (max_depth : option Z) : M (list entity) :=
  match cls self with
  | Volume => ZFSVolume.filesystems self max_depth
  | _ => ZFSDataset.filesystems self max_depth
  end.

Definition volumes (self : entity) (max_depth : option Z) : M (list entity) :=
  match cls self with
  | Volume => ZFSVolume.volumes self max_depth
  | _ => ZFSDataset.volumes self max_depth
  end.

Definition snapshots (self : entity) (max_depth : option Z) : M (list entity) :=
  match cls self with
  | Snapshot => ZFSSnapshot.snapshots self max_depth
  | _ => ZFSDataset.snapshots self max_depth
  end.

Definition snapshot (self : entity) (snapname : string) (recursive : bool)
    (props : list (string * string)) : M entity :=
  match cls self with
  | Snapshot => ZFSSnapshot.snapshot self snapname recursive props
  | _ => ZFSDataset.snapshot self snapname recursive props
  end.

(** ** Pipelines as sequences of stages

    The words of a pipeline are the stages' argument vectors separated
    by the word [|].  The stage view names each part; the two lemmas
    [send_words_stages] and [receive_words_stages] below tie it to the
    lists the code builds. *)

Inductive stage : Type :=
| Generation | Buffering | Metering | Compression | Decompression | Reception.

Definition stage_eqb (a b : stage) : bool :=
  match a, b with
  | Generation, Generation | Buffering, Buffering | Metering, Metering
  | Compression, Compression | Decompression, Decompression
  | Reception, Reception => true
  | _, _ => false
  end.

Abbreviation pipeline := (list (stage * list string)).

Fixpoint pipe (l : list (list string)) : list string :=
  match l with
  | [] => []
  | [s] => s
  | s :: r => s ++ ["|"] ++ pipe r
  end.

Definition kinds (p : pipeline) : list stage := map fst p.

Definition has_stage (k : stage) (p : pipeline) : bool :=
  existsb (stage_eqb k) (kinds p).

(** An optional stage: present when the tool is there and the guard
    holds. *)
Definition opt_stage (k : stage) (tool : option (list string)) (guard : bool)
  : pipeline :=
  match tool with
  | Some argv => if guard then [(k, argv)] else []
  | None => []
  end.

Definition send_stages (env : Local) (self : entity) (ssh_dest : option SSH)
    (base : option entity)
    (intermediates replicate properties deduplicate raw : bool)
    (stream_size : Z) : pipeline :=
  let remote := Py.truthy_obj (ssh self) || Py.truthy_obj ssh_dest in
  let '(mbuffer, pv) :=
    match ssh self with
    | Some s => (mbuffer s, pv s)
    | None => (MBUFFER env, PV env)
    end in
  let compress := ZFSSnapshot.send_compress (ssh self) ssh_dest in
  [(Generation, ZFSSnapshot.send_zfs self base intermediates replicate
                  properties deduplicate raw)]
  ++ opt_stage Buffering
       (option_map (fun f => f (mbuff_size stream_size remote)) mbuffer)
       (MiB <=? stream_size)
  ++ opt_stage Metering
       (option_map (fun f => ZFSSnapshot.pv_cmd env f stream_size) pv)
       (MiB <=? stream_size)
  ++ opt_stage Compression compress (Py.truthy_optlist compress && negb raw).

Definition receive_stages (env : Local) (name : string)
    (ssh ssh_source : option SSH)
    (append_name append_path force nomount : bool)
    (stream_size : Z) (raw : bool) : pipeline :=
  let remote := Py.truthy_obj ssh_source || Py.truthy_obj ssh in
  let mbuffer :=
    match ssh with
    | Some s => mbuffer s
    | None => MBUFFER env
    end in
  let decompress := receive_decompress ssh_source ssh in
  opt_stage Buffering
    (option_map (fun f => f (mbuff_size stream_size remote)) mbuffer)
    (remote && (MiB <=? stream_size))
  ++ opt_stage Decompression decompress (Py.truthy_optlist decompress && negb raw)
  ++ [(Reception, receive_zfs name append_name append_path force nomount)].

(** The compression vector of an endpoint; the local endpoint ([None])
    has none. *)
Definition endpoint_compress (e : option SSH) : option (list string) :=
  match e with Some s => compress s | None => None end.

Definition endpoint_decompress (e : option SSH) : option (list string) :=
  match e with Some s => decompress s | None => None end.

(** A transfer is remote when either endpoint is. *)
Definition remote (a b : option SSH) : bool :=
  Py.truthy_obj a || Py.truthy_obj b.

(** [clamp x lo hi]: [x] brought into the interval from [lo] to [hi]. *)
Definition clamp (x lo hi : Z) : Z :=
  if x <? lo then lo else if hi <? x then hi else x.

(** [precedes a b l]: some occurrence of [a] in [l] comes before some
    occurrence of [b]. *)
Fixpoint precedes (a b : stage) (l : list stage) : bool :=
  match l with
  | [] => false
  | x :: r => (stage_eqb x a && existsb (stage_eqb b) r) || precedes a b r
  end.

(** ** Module-level [roots] and [create] *)

Definition roots (ssh : option SSH) : M (list entity) :=
  find None ssh (Some 0) [].

(** [key in props] for the items of a dictionary. *)
Definition has_key (key : string) (props : list (string * string)) : bool :=
  existsb (fun pv => bool_decide (fst pv = key)) props.

(** The default option [create] adds unless the caller set it or
    passed an empty default. *)
Definition default_opt (key : string) (value : option string)
    (props : list (string * string)) : list string :=
  match value with
  | Some v =>
      if Py.truthy_str v
      then if negb (has_key key props) then ["-o"; key +:+ "=" +:+ v] else []
      else []
  | None => []
  end.

(** [create].  [volsize] is the text [str(volsize)] (["None"] when the
    argument is left out); [volblocksize] and [recordsize] are [None] or
    strings; [props] holds the items of the dictionary with the values
    already converted by [str]. *)
Definition create (name : string) (ssh : option SSH) (type : string)
    (sparse : bool) (volsize : string) (volblocksize recordsize : option string)
    (props : list (string * string)) (force_parent : bool) : M entity :=
  let cmd := ["zfs"; "create"] in
  let* cmd :=
    if bool_decide (type = "volume")
    then ret (cmd ++ ["-V"; volsize] ++ (if sparse then ["-s"] else []))
    else if negb (bool_decide (type = "filesystem")) then raise ValueError
    else ret cmd in
  let cmd := cmd ++ (if force_parent then ["-p"] else [])
             ++ flat_map (fun pv => ["-o"; fst pv +:+ "=" +:+ snd pv]) props in
  let cmd :=
    if bool_decide (type = "volume")
    then cmd ++ default_opt "volblocksize" volblocksize props
    else cmd ++ default_opt "recordsize" recordsize props in
  let* _ := check_output (cmd ++ [name]) ssh in
  if bool_decide (type = "volume")
  then ret (Entity Volume name ssh)
  else ret (Entity Filesystem name ssh).

(** The last line of the answer that speaks of property [p] of dataset
    [n], as (value, source). *)
Fixpoint last_line (n p : string) (out : table) : option (string * string) :=
  match out with
  | [] => None
  | row :: rest =>
      match last_line n p rest with
      | Some vs => Some vs
      | None =>
          match row with
          | n' :: p' :: v :: s :: _ =>
              if bool_decide (n' = n) && bool_decide (p' = p)
              then Some (v, s) else None
          | _ => None
          end
      end
  end.

(** Some line of the answer speaks of dataset [n]. *)
Definition names_dataset (n : string) (out : table) : bool :=
  existsb (fun row => bool_decide (head row = Some n)) out.

(** The handle [find] builds for a line [name, type]. *)
Definition handle_of_row (ssh : option SSH) (row : list string)
  : result entity :=
  match row with
  | [n; t] =>
      match kind_of_type t with
      | Ok k => Ok (Entity k n ssh)
      | Raise e => Raise e
      end
  | _ => Raise ValueError
  end.

(** The handles for a whole listing, stopping at the first bad line. *)
Fixpoint handles_of_rows (ssh : option SSH) (out : table)
  : result (list entity) :=
  match out with
  | [] => Ok []
  | row :: rest =>
      match handle_of_row ssh row with
      | Ok d =>
          match handles_of_rows ssh rest with
          | Ok ds => Ok (d :: ds)
          | Raise e => Raise e
          end
      | Raise e => Raise e
      end
  end.

(** The world after one more call. *)
Definition after (w : World) (c : call) : World :=
  mkWorld (oracle w) (log w ++ [c]).

(** The call [find] issues. *)
Definition find_call (path : option string) (ssh : option SSH)
    (depth types : list string) : call :=
  Call ssh (["zfs"; "list"; "-H"] ++ depth ++ opt_flag "-t" types
            ++ ["-o"; "name,type"] ++ opt_path path).

(** The type string of a class. *)
Definition type_name (k : kind) : string :=
  match k with
  | Filesystem => "filesystem"
  | Volume => "volume"
  | Snapshot => "snapshot"
  end.

(** The call [findprops] issues. *)
Definition findprops_call (path : option string) (ssh : option SSH)
    (depth props sources types : list string) : call :=
  Call ssh (["zfs"; "get"; "-H"; "-p"] ++ depth
            ++ opt_flag "-t" types ++ opt_flag "-s" sources
            ++ [Py.join "," props] ++ opt_path path).

(** The value of property [p] of dataset [n] in a dictionary. *)
Definition prop_lookup (d : propdict) (n p : string) : option (string * string) :=
  match d !! n with
  | Some props => props !! p
  | None => None
  end.

(** ** Rules the pipelines are compared with *)

(** Compression as a rule on both endpoints' vectors: the transfer is
    remote, [raw] is off, and the two vectors [vec] reads from the
    endpoints are non-empty and equal. *)
Definition both_vectors_rule (vec : option SSH -> option (list string))
    (src dst : option SSH) (raw : bool) : Prop :=
  remote src dst = true /\ raw = false
  /\ Py.truthy_optlist (vec src) = true
  /\ Py.truthy_optlist (vec dst) = true
  /\ vec src = vec dst.

(** What the code negotiates: with both endpoints remote the two
    vectors must agree; with one remote endpoint its vector alone
    decides. *)
Inductive negotiated (vec : SSH -> option (list string))
  : option SSH -> option SSH -> Prop :=
| both_remote s d :
    vec s = vec d -> Py.truthy_optlist (vec s) = true ->
    negotiated vec (Some s) (Some d)
| source_remote s :
    Py.truthy_optlist (vec s) = true -> negotiated vec (Some s) None
| dest_remote d :
    Py.truthy_optlist (vec d) = true -> negotiated vec None (Some d).

(** [kinds p] picks its stages, in order, out of [order]. *)
Fixpoint in_order (order l : list stage) : bool :=
  match l, order with
  | [], _ => true
  | _ :: _, [] => false
  | x :: r, o :: order' =>
      if stage_eqb x o then in_order order' r else in_order order' l
  end.

(** The buffering and metering tools of an endpoint: the remote
    shell's when there is one, the module's own otherwise. *)
Definition endpoint_mbuffer (env : Local) (e : option SSH)
  : option (Z -> list string) :=
  match e with Some s => mbuffer s | None => MBUFFER env end.

Definition endpoint_pv (env : Local) (e : option SSH)
  : option (Z -> list string) :=
  match e with Some s => pv s | None => PV env end.

Definition when (b : bool) (k : stage) : list stage :=
  if b then [k] else [].

(** The command [getprop] issues. *)
Definition getprop_call (self : entity) (prop : string) : call :=
  Call (ssh self)
       (["zfs"; "get"; "-H"; "-p"; "-d"; "0"; prop] ++ opt_path (Some (name self))).

(** The word the size is read from: the last space-separated word of
    the last field of the last line of the answer, if there is one. *)
Definition final_word (out : table) : option string :=
  match Py.last_item out with
  | Some row =>
      match Py.last_item row with
      | Some field => Py.last_item (Py.split " "%char field)
      | None => None
      end
  | None => None
  end.

(** The dry-run call of [stream_size]. *)
Definition size_call (self : entity) (base : option entity) : call :=
  Call (ssh self) (ZFSSnapshot.size_cmd self base).

(** The call of [stream_size] will run the tool: the object has no
    cache yet, or the cache has no entry for this base. *)
Definition cache_miss (a : attrs) (base : option entity) : Prop :=
  match a with
  | None => True
  | Some c => c !! ZFSSnapshot.base_key base = None
  end.

(** The cache holds an entry for this base. *)
Definition cached (a : attrs) (base : option entity) : Prop :=
  match a with
  | None => False
  | Some c => is_Some (c !! ZFSSnapshot.base_key base)
  end.

(** ** Sample endpoints, datasets and worlds *)

Module Sample.

(** A machine with both tools, writing to a log file. *)
Definition tools : Local := mkLocal true true false.

(** A machine with neither tool. *)
Definition bare : Local := mkLocal false false true.

Definition remote_mbuffer (mem : Z) : list string :=
  ["mbuffer"; "-q"; "-s"; "128K"; "-m"; Py.str_int mem +:+ "M"].

Definition remote_pv (size : Z) : list string :=
  ["pv"; "-f"; "-w"; "100"; "-s"; Py.str_int size].

(** A backup host that negotiated [lzop]. *)
Definition backup : SSH :=
  mkSSH "root" "backup" ["ssh"; "root@backup"]
        (Some ["lzop"]) (Some ["lzop"; "-dfc"])
        (Some remote_mbuffer) (Some remote_pv).

(** A host that negotiated [gzip]. *)
Definition archive : SSH :=
  mkSSH "root" "archive" ["ssh"; "root@archive"]
        (Some ["gzip"]) (Some ["gzip"; "-dfc"])
        None None.

Definition snap : entity := Entity Snapshot "tank/data@monday" None.
Definition clone : entity := Entity Filesystem "tank/clone" None.
Definition renamed : entity := Entity Filesystem "tank/moved" None.
Definition vol : entity := Entity Volume "tank/vol" None.

(** One line of [zfs get -H -p] output. *)
Definition prop_line (n p v : string) : table := [[n; p; v; "-"]].

Definition get0 (p n : string) : list string :=
  ["zfs"; "get"; "-H"; "-p"; "-d"; "0"; p; n].

(** A pool in which [tank/clone] was cloned from [tank/data@monday],
    and [tank/moved] is the same dataset as [tank/clone] under a new
    name.  Everything else is unknown to the tool. *)
Definition pool (history : list call) (c : call) : result table :=
  let argv := call_argv c in
  if bool_decide (argv = get0 "origin" "tank/clone")
  then Ok (prop_line "tank/clone" "origin" "tank/data@monday")
  else if bool_decide (argv = get0 "origin" "tank/data")
  then Ok (prop_line "tank/data" "origin" "-")
  else if bool_decide (argv = get0 "type" "tank/data@monday")
  then Ok (prop_line "tank/data@monday" "type" "snapshot")
  else if bool_decide (argv = get0 "guid" "tank/data@monday")
  then Ok (prop_line "tank/data@monday" "guid" "1154")
  else if bool_decide (argv = get0 "guid" "tank/clone")
  then Ok (prop_line "tank/clone" "guid" "7302")
  else if bool_decide (argv = get0 "guid" "tank/moved")
  then Ok (prop_line "tank/moved" "guid" "7302")
  else if bool_decide (argv = get0 "clones" "tank/data@monday")
  then Ok (prop_line "tank/data@monday" "clones" "tank/clone")
  else if bool_decide (argv = get0 "clones" "tank/data@tuesday")
  then Ok (prop_line "tank/data@tuesday" "clones" "-")
  else if bool_decide (argv = get0 "clones" "tank/data@empty")
  then Ok (prop_line "tank/data@empty" "clones" "")
  else if bool_decide (argv = ["zfs"; "get"; "-H"; "-p"; "-d"; "0"; "type"])
  then Ok (prop_line "tank" "type" "filesystem")
  else if bool_decide (argv = ["zfs"; "promote"; "tank/clone"])
  then Ok []
  else Raise DatasetNotFoundError.

Definition start : World := mkWorld pool [].

(** A dataset that is busy at the first dry run and answers at the
    second. *)
Definition busy_once (history : list call) (c : call) : result table :=
  match history with
  | [] => Raise DatasetBusyError
  | _ :: _ => Ok [["full"; "tank/data@monday"; "4096"]; ["size"; "4096"]]
  end.

(** A tool whose dry run prints the given last line. *)
Definition prints (line : list string) (history : list call) (c : call)
  : result table :=
  Ok [["full"; "tank/data@monday"]; line].

End Sample.

(** ** More sample answers *)

Module Answers.

(** A tool that gives the same answer to every command. *)
Definition always (r : result table) (history : list call) (c : call)
  : result table := r.

(** A listing of a pool and one child. *)
Definition listing : table :=
  [["tank"; "filesystem"]; ["tank/data"; "filesystem"]; ["tank/vol"; "volume"]].

(** Properties of two datasets; the compression of [tank/data] is
    reported twice. *)
Definition properties : table :=
  [["tank"; "compression"; "off"; "default"];
   ["tank/data"; "compression"; "lz4"; "local"];
   ["tank/data"; "origin"; "-"; "-"];
   ["tank/data"; "compression"; "zstd"; "local"]].

End Answers.

(** * Properties *)

(** ** The stage view agrees with the code *)

Section Pipelines.

Variable env : Local.

Lemma pipe_cons (s : list string) (r : list (list string)) :
  r <> [] -> pipe (s :: r) = s ++ ["|"] ++ pipe r.
Proof. destruct r; [congruence | reflexivity]. Qed.

Lemma pipe_snoc (l : list (list string)) (s : list string) :
  l <> [] -> pipe (l ++ [s]) = pipe l ++ ["|"] ++ s.
Proof.
  induction l as [| x r IH]; [congruence |]. intros _.
  destruct r as [| y r']; [reflexivity |].
  change ((x :: y :: r') ++ [s]) with (x :: ((y :: r') ++ [s])).
  rewrite (pipe_cons x ((y :: r') ++ [s])) by discriminate.
  rewrite IH by discriminate.
  rewrite (pipe_cons x (y :: r')) by discriminate.
  now rewrite <- !app_assoc.
Qed.

(** Appending an optional stage to a non-empty pipeline is the
    code's [cmd += ['|'] + tool]. *)
Lemma pipe_opt_stage (p : pipeline) k tool guard :
  p <> [] ->
  pipe (map snd (p ++ opt_stage k tool guard)) =
  match tool with
  | Some argv => if guard then pipe (map snd p) ++ ["|"] ++ argv
                 else pipe (map snd p)
  | None => pipe (map snd p)
  end.
Proof.
  intros Hp. unfold opt_stage.
  destruct tool as [argv |]; [destruct guard |]; rewrite ?app_nil_r; auto.
  rewrite map_app. apply pipe_snoc. destruct p; [congruence | discriminate].
Qed.

(** The words [send] joins are the stages of [send_stages] separated
    by [|]. *)
Lemma send_words_stages self ssh_dest base i r p d raw size :
  ZFSSnapshot.send_words env self ssh_dest base i r p d raw size =
  pipe (map snd (send_stages env self ssh_dest base i r p d raw size)).
Proof.
  unfold ZFSSnapshot.send_words, send_stages.
  destruct (match ssh self with
            | Some s => (mbuffer s, pv s)
            | None => (MBUFFER env, PV env)
            end) as [mb pvf].
  rewrite !app_assoc.
  rewrite pipe_opt_stage by (now destruct (opt_stage Buffering _ _)).
  rewrite pipe_opt_stage by (now destruct (opt_stage Buffering _ _)).
  rewrite pipe_opt_stage by discriminate.
  cbn [map snd pipe app].
  destruct mb, pvf, (ZFSSnapshot.send_compress (ssh self) ssh_dest) as [[|]|];
    cbn [option_map Py.truthy_optlist Py.truthy_list andb default];
    destruct (MiB <=? size), raw; cbn [negb]; unfold id;
    rewrite <- ?app_assoc; reflexivity.
Qed.

(** The words [receive] joins are the stages of [receive_stages]
    separated by [|]. *)
Lemma receive_words_stages name ssh ssh_source e d f u size raw :
  receive_words env name ssh ssh_source e d f u size raw =
  pipe (map snd (receive_stages env name ssh ssh_source e d f u size raw)).
Proof.
  unfold receive_words, receive_stages, opt_stage.
  destruct (match ssh with Some s => mbuffer s | None => MBUFFER env end);
    destruct (receive_decompress ssh_source ssh) as [[|]|];
    cbn [option_map Py.truthy_optlist Py.truthy_list andb default];
    destruct (Py.truthy_obj ssh_source || Py.truthy_obj ssh),
             (MiB <=? size), raw; cbn [negb andb]; unfold id;
    rewrite <- ?app_assoc; reflexivity.
Qed.

End Pipelines.

(** ** Which stages a pipeline has *)

Section Stages.

Variable env : Local.

Lemma stage_eqb_eq a b : stage_eqb a b = true <-> a = b.
Proof. destruct a, b; simpl; split; congruence. Qed.

Lemma kinds_opt_stage k tool guard :
  kinds (opt_stage k tool guard) = when (Py.truthy_obj tool && guard) k.
Proof. now destruct tool, guard. Qed.

Lemma kinds_app (p q : pipeline) : kinds (p ++ q) = kinds p ++ kinds q.
Proof. apply map_app. Qed.

(** The kinds of a source pipeline, read off the three guards. *)
Lemma send_kinds self ssh_dest base i r p d raw size :
  kinds (send_stages env self ssh_dest base i r p d raw size) =
  [Generation]
  ++ when (Py.truthy_obj (endpoint_mbuffer env (ssh self)) && (MiB <=? size))
          Buffering
  ++ when (Py.truthy_obj (endpoint_pv env (ssh self)) && (MiB <=? size))
          Metering
  ++ when (Py.truthy_optlist (ZFSSnapshot.send_compress (ssh self) ssh_dest)
           && negb raw) Compression.
Proof.
  unfold send_stages, endpoint_mbuffer, endpoint_pv.
  destruct (ZFSSnapshot.send_compress (ssh self) ssh_dest) as [[|]|];
    destruct (ssh self) as [host |];
    rewrite !kinds_app, !kinds_opt_stage; cbn [kinds map fst];
    try destruct (mbuffer host), (pv host);
    try destruct (MBUFFER env), (PV env);
    destruct (MiB <=? size), raw; reflexivity.
Qed.

(** The kinds of a destination pipeline. *)
Lemma receive_kinds name ssh ssh_source e d f u size raw :
  kinds (receive_stages env name ssh ssh_source e d f u size raw) =
  when (Py.truthy_obj (endpoint_mbuffer env ssh)
        && (remote ssh_source ssh && (MiB <=? size))) Buffering
  ++ when (Py.truthy_optlist (receive_decompress ssh_source ssh) && negb raw)
          Decompression
  ++ [Reception].
Proof.
  unfold receive_stages, endpoint_mbuffer, remote.
  rewrite !kinds_app, !kinds_opt_stage. cbn [kinds map fst].
  destruct (match ssh with Some s => mbuffer s | None => MBUFFER env end),
    (receive_decompress ssh_source ssh) as [[|]|],
    (Py.truthy_obj ssh_source || Py.truthy_obj ssh), (MiB <=? size), raw;
    reflexivity.
Qed.

(** The vector [send] settles on is usable exactly when the endpoints
    negotiated one. *)
Lemma send_compress_negotiated (src dst : option SSH) :
  Py.truthy_optlist (ZFSSnapshot.send_compress src dst) = true
  <-> negotiated compress src dst.
Proof.
  unfold ZFSSnapshot.send_compress. split.
  - destruct src as [s |], dst as [t |]; try (now constructor); try discriminate.
    case_bool_decide; [now constructor | discriminate].
  - destruct 1; auto. now rewrite bool_decide_eq_true_2.
Qed.

Lemma receive_decompress_negotiated (src dst : option SSH) :
  Py.truthy_optlist (receive_decompress src dst) = true
  <-> negotiated decompress src dst.
Proof.
  unfold receive_decompress. split.
  - destruct src as [s |], dst as [t |]; try (now constructor); try discriminate.
    case_bool_decide; [now constructor | discriminate].
  - destruct 1; auto. now rewrite bool_decide_eq_true_2.
Qed.

Lemma mbuff_size_clamp size (rem : bool) :
  mbuff_size size rem = clamp (size / MiB) 1 (if rem then 256 else 512).
Proof.
  unfold mbuff_size, clamp.
  destruct (size / MiB <? 1) eqn:Hlo;
    [apply Z.ltb_lt in Hlo | apply Z.ltb_ge in Hlo].
  - destruct rem; lia.
  - destruct ((if rem then 256 else 512) <? size / MiB) eqn:Hhi;
      [apply Z.ltb_lt in Hhi | apply Z.ltb_ge in Hhi]; destruct rem; lia.
Qed.

End Stages.

(** ** Compression (claim C2) *)

(** C2, as the claim has it, fails: a local snapshot sent to a remote
    host is compressed with that host's vector alone, although the
    local endpoint has no vector to compare it with; the receiving side
    decompresses on the same ground. *)
Lemma compression_with_one_remote_endpoint :
  has_stage Compression
    (send_stages Sample.tools Sample.snap (Some Sample.backup) None
       false false false false false 0) = true
  /\ ZFSSnapshot.send_words Sample.tools Sample.snap (Some Sample.backup) None
       false false false false false 0
     = ["zfs"; "send"; "tank/data@monday"; "|"; "lzop"]
  /\ ~ both_vectors_rule endpoint_compress
         (ssh Sample.snap) (Some Sample.backup) false
  /\ has_stage Decompression
       (receive_stages Sample.tools "backup/data" (Some Sample.backup) None
          false false false false 0 false) = true
  /\ ~ both_vectors_rule endpoint_decompress
         None (Some Sample.backup) false.
Proof.
  split; [reflexivity |]. split; [reflexivity |].
  split; [intros (_ & _ & H & _); discriminate H |].
  split; [reflexivity |].
  intros (_ & _ & H & _). discriminate H.
Qed.

(** C2, amended: the source pipeline has a compression stage exactly
    when [raw] is off and the endpoints negotiated a compression
    vector: both remote with equal non-empty vectors, or one remote
    with a non-empty vector.  The destination pipeline has a
    decompression stage under the same rule read on the decompression
    vectors.  Both builders are total functions, so differing vectors
    drop the stage without an error, and a stage that is present holds
    the negotiated vector. *)
Theorem compression_stage_negotiated
    (env : Local) (self : entity) (ssh_dest : option SSH) (base : option entity)
    (i r p d raw : bool) (size : Z)
    (name : string) (ssh_source : option SSH) (e dd f u : bool) (size' : Z) :
  (has_stage Compression (send_stages env self ssh_dest base i r p d raw size) = true
   <-> raw = false /\ negotiated compress (ssh self) ssh_dest)
  /\ (has_stage Decompression
        (receive_stages env name ssh_dest ssh_source e dd f u size' raw) = true
      <-> raw = false /\ negotiated decompress ssh_source ssh_dest)
  /\ (forall argv,
        In (Compression, argv) (send_stages env self ssh_dest base i r p d raw size) ->
        ZFSSnapshot.send_compress (ssh self) ssh_dest = Some argv)
  /\ ZFSSnapshot.send_words env self ssh_dest base i r p d raw size
     = pipe (map snd (send_stages env self ssh_dest base i r p d raw size))
  /\ receive_words env name ssh_dest ssh_source e dd f u size' raw
     = pipe (map snd (receive_stages env name ssh_dest ssh_source e dd f u size' raw)).
Proof.
  split; [| split; [| split; [| split]]].
  - unfold has_stage. rewrite send_kinds.
    rewrite <- send_compress_negotiated.
    destruct (Py.truthy_obj (endpoint_mbuffer env (ssh self)) && (MiB <=? size)),
      (Py.truthy_obj (endpoint_pv env (ssh self)) && (MiB <=? size)),
      (Py.truthy_optlist (ZFSSnapshot.send_compress (ssh self) ssh_dest)),
      raw; cbn; intuition congruence.
  - unfold has_stage. rewrite receive_kinds.
    rewrite <- receive_decompress_negotiated.
    destruct (Py.truthy_obj (endpoint_mbuffer env ssh_dest)
              && (remote ssh_source ssh_dest && (MiB <=? size'))),
      (Py.truthy_optlist (receive_decompress ssh_source ssh_dest)),
      raw; cbn; intuition congruence.
  - intros argv. unfold send_stages.
    destruct (match ssh self with
              | Some s => (mbuffer s, pv s)
              | None => (MBUFFER env, PV env)
              end) as [mb pvf].
    rewrite !in_app_iff. unfold opt_stage.
    intros [H | [H | [H | H]]].
    + destruct H as [H | []]; discriminate H.
    + destruct (option_map _ mb); [destruct (MiB <=? size) |];
        try destruct H as [H | []]; try discriminate H; destruct H.
    + destruct (option_map _ pvf); [destruct (MiB <=? size) |];
        try destruct H as [H | []]; try discriminate H; destruct H.
    + destruct (ZFSSnapshot.send_compress (ssh self) ssh_dest) as [v |];
        [| destruct H].
      destruct (Py.truthy_optlist (Some v) && negb raw); [| destruct H].
      destruct H as [H | []]. congruence.
  - apply send_words_stages.
  - apply receive_words_stages.
Qed.

(** The amended rule at work: two remote hosts with different tools get
    no compression stage, and one remote host gets its own. *)
Lemma compression_stage_negotiated_witness :
  has_stage Compression
    (send_stages Sample.tools
       (Entity Snapshot "tank/data@monday" (Some Sample.backup))
       (Some Sample.archive) None false false false false false 0) = true
  <-> false = false /\ negotiated compress (Some Sample.backup) (Some Sample.archive).
Proof.
  exact (proj1 (compression_stage_negotiated Sample.tools
                  (Entity Snapshot "tank/data@monday" (Some Sample.backup))
                  (Some Sample.archive) None false false false false false 0
                  "backup/data" None false false false false 0)).
Defined.

(** ** Stage order of the source pipeline (claim C3) *)

(** C3, as the claim has it, fails: with both tools at hand and two
    mebibytes to send, the buffering stage comes before the metering
    stage. *)
Lemma buffering_comes_before_metering :
  let p := send_stages Sample.tools Sample.snap None None
             false false false false false (2 * MiB) in
  has_stage Metering p = true
  /\ has_stage Buffering p = true
  /\ precedes Metering Buffering (kinds p) = false
  /\ kinds p = [Generation; Buffering; Metering]
  /\ ZFSSnapshot.send_words Sample.tools Sample.snap None None
       false false false false false (2 * MiB)
     = ["zfs"; "send"; "tank/data@monday"; "|";
        "mbuffer"; "-q"; "-s"; "128K"; "-m"; "2M"; "|";
        "pv"; "-f"; "-w"; "100"; "-s"; "2097152"; "-D"; "60"; "-i"; "60"].
Proof. repeat split; vm_compute; reflexivity. Qed.

(** C3, amended: the stages of every source pipeline are taken, in
    this order, from generation, buffering, metering, compression; the
    generation stage is always first; and when both optional tools are
    in the pipeline the buffering stage precedes the metering stage. *)
Theorem send_stage_order
    (env : Local) (self : entity) (ssh_dest : option SSH) (base : option entity)
    (i r p d raw : bool) (size : Z) :
  let pl := send_stages env self ssh_dest base i r p d raw size in
  in_order [Generation; Buffering; Metering; Compression] (kinds pl) = true
  /\ head (kinds pl) = Some Generation
  /\ (has_stage Buffering pl && has_stage Metering pl
      = precedes Buffering Metering (kinds pl))
  /\ precedes Metering Buffering (kinds pl) = false
  /\ ZFSSnapshot.send_words env self ssh_dest base i r p d raw size
     = pipe (map snd pl).
Proof.
  cbv zeta. unfold has_stage. rewrite send_kinds, <- send_words_stages.
  destruct (Py.truthy_obj (endpoint_mbuffer env (ssh self)) && (MiB <=? size)),
    (Py.truthy_obj (endpoint_pv env (ssh self)) && (MiB <=? size)),
    (Py.truthy_optlist (ZFSSnapshot.send_compress (ssh self) ssh_dest) && negb raw);
    repeat split; reflexivity.
Qed.

(** ** Size gates and buffer size (claim C6) *)

Lemma in_opt_stage k k' tool guard (argv : list string) :
  In (k', argv) (opt_stage k tool guard) ->
  k' = k /\ tool = Some argv /\ guard = true.
Proof.
  unfold opt_stage. destruct tool as [v |]; [destruct guard |]; cbn;
    intros H; try contradiction.
  destruct H as [H | []]. now inversion H.
Qed.

(** C6: below one mebibyte neither pipeline has a metering or a
    buffering stage, whatever tools the endpoints have; and a buffering
    stage that is present was built by the endpoint's buffer command
    for [clamp (size div MiB) 1 cap] mebibytes, with [cap] 256 for a
    remote transfer and 512 for a local one.  The module's own buffer
    command puts that number, followed by [M], after [-m].  The stages
    are those of the words [send] and [receive] join. *)
Theorem size_gates_and_buffer_size
    (env : Local) (self : entity) (ssh_dest : option SSH) (base : option entity)
    (i r p d raw : bool) (name : string) (ssh_source : option SSH)
    (e dd f u : bool) (size : Z) :
  let src := send_stages env self ssh_dest base i r p d raw size in
  let dst := receive_stages env name ssh_dest ssh_source e dd f u size raw in
  (size < MiB ->
   has_stage Metering src = false /\ has_stage Buffering src = false
   /\ has_stage Metering dst = false /\ has_stage Buffering dst = false)
  /\ (forall argv, In (Buffering, argv) src ->
        exists tool, endpoint_mbuffer env (ssh self) = Some tool
          /\ argv = tool (clamp (size / MiB) 1
                            (if remote (ssh self) ssh_dest then 256 else 512)))
  /\ (forall argv, In (Buffering, argv) dst ->
        exists tool, endpoint_mbuffer env ssh_dest = Some tool
          /\ argv = tool (clamp (size / MiB) 1
                            (if remote ssh_source ssh_dest then 256 else 512)))
  /\ (forall tool mem, MBUFFER env = Some tool ->
        tool mem = ["mbuffer"; "-q"; "-s"; "128K"; "-m"; Py.str_int mem +:+ "M"])
  /\ ZFSSnapshot.send_words env self ssh_dest base i r p d raw size
     = pipe (map snd src)
  /\ receive_words env name ssh_dest ssh_source e dd f u size raw
     = pipe (map snd dst).
Proof.
  cbv zeta. split; [| split; [| split; [| split; [| split]]]];
    [| | | | apply send_words_stages | apply receive_words_stages].
  - intros Hsmall. unfold has_stage. rewrite send_kinds, receive_kinds.
    assert (Hgate : (MiB <=? size) = false) by (apply Z.leb_gt; exact Hsmall).
    rewrite Hgate.
    rewrite !andb_false_r. cbn [when app].
    destruct (Py.truthy_optlist (ZFSSnapshot.send_compress (ssh self) ssh_dest)
              && negb raw),
      (Py.truthy_optlist (receive_decompress ssh_source ssh_dest) && negb raw);
      repeat split; reflexivity.
  - intros argv. unfold send_stages, endpoint_mbuffer, remote.
    destruct (ssh self) as [host |]; cbn [Py.truthy_obj orb];
      rewrite !in_app_iff;
      (intros [H | [H | [H | H]]];
       [destruct H as [H | []]; discriminate H
       | | apply in_opt_stage in H; destruct H as [H _]; discriminate H
       | apply in_opt_stage in H; destruct H as [H _]; discriminate H]);
      apply in_opt_stage in H; destruct H as (_ & H & _).
    + destruct (mbuffer host) as [tool |]; [| discriminate H].
      exists tool. split; [reflexivity |].
      injection H as <-. now rewrite mbuff_size_clamp.
    + destruct (MBUFFER env) as [tool |]; [| discriminate H].
      exists tool. split; [reflexivity |].
      injection H as <-. now rewrite mbuff_size_clamp.
  - intros argv. unfold receive_stages, endpoint_mbuffer, remote.
    rewrite !in_app_iff.
    intros [H | [H | H]];
      [| apply in_opt_stage in H; destruct H as [H _]; discriminate H
       | destruct H as [H | []]; discriminate H].
    apply in_opt_stage in H. destruct H as (_ & H & _).
    destruct (match ssh_dest with Some s => mbuffer s | None => MBUFFER env end)
      as [tool |]; [| discriminate H].
    exists tool. split; [reflexivity |].
    injection H as <-. now rewrite mbuff_size_clamp.
  - intros tool mem. unfold MBUFFER.
    destruct (exists_mbuffer env); [| discriminate]. now intros [= <-].
Qed.

(** The buffer sizes of ten and three hundred mebibytes, local and
    remote. *)
Example buffer_sizes :
  mbuff_size (10 * MiB) false = 10 /\ mbuff_size (10 * MiB) true = 10
  /\ mbuff_size (300 * MiB) false = 300 /\ mbuff_size (300 * MiB) true = 256
  /\ mbuff_size (MiB - 1) false = 1.
Proof. repeat split; reflexivity. Qed.

(** Five hundred kibibytes, every tool installed: only the generation
    and compression stages remain. *)
Lemma size_gates_and_buffer_size_witness :
  let src := send_stages Sample.tools Sample.snap (Some Sample.backup) None
               false false false false false 512000 in
  let dst := receive_stages Sample.tools "backup/data" (Some Sample.backup) None
               false false false false 512000 false in
  has_stage Metering src = false /\ has_stage Buffering src = false
  /\ has_stage Metering dst = false /\ has_stage Buffering dst = false.
Proof.
  apply (proj1 (size_gates_and_buffer_size Sample.tools Sample.snap
                  (Some Sample.backup) None false false false false false
                  "backup/data" None false false false false 512000)).
  reflexivity.
Defined.

(** ** Running commands in the monad *)

Lemma bind_ok {A B} (m : M A) (k : A -> M B) w a w' :
  m w = (Ok a, w') -> bind m k w = k a w'.
Proof. unfold bind. now intros ->. Qed.

Lemma bind_raise {A B} (m : M A) (k : A -> M B) w e w' :
  m w = (Raise e, w') -> bind m k w = (Raise e, w').
Proof. unfold bind. now intros ->. Qed.

(** ** The property sentinel (claim C7) *)

(** C7: when the query for one property of a dataset fetched the raw
    value [v], [getpropval] returns the default if [v] is the sentinel
    ['-'] and [v] itself otherwise; nothing more is asked of the
    tool. *)
Theorem getpropval_sentinel
    (self : entity) (prop : string) (dflt : option string)
    (w w1 : World) (v src : string) :
  ZFSDataset.getprop self prop w = (Ok (Some (v, src)), w1) ->
  (v = "-" -> ZFSDataset.getpropval self prop dflt w = (Ok dflt, w1))
  /\ (v <> "-" -> ZFSDataset.getpropval self prop dflt w = (Ok (Some v), w1)).
Proof.
  intros Hget. unfold ZFSDataset.getpropval.
  rewrite (bind_ok _ _ _ _ _ Hget). cbn.
  unfold ret. split; intros Hv; case_bool_decide; congruence.
Qed.

Lemma getpropval_sentinel_witness :
  ZFSDataset.getpropval (Entity Filesystem "tank/data" None) "origin"
    (Some "unset") Sample.start
  = (Ok (Some "unset"),
     mkWorld Sample.pool [Call None (Sample.get0 "origin" "tank/data")]).
Proof.
  apply (proj1 (getpropval_sentinel (Entity Filesystem "tank/data" None)
                  "origin" (Some "unset") Sample.start
                  (mkWorld Sample.pool
                     [Call None (Sample.get0 "origin" "tank/data")])
                  "-" "-" eq_refl)).
  reflexivity.
Defined.

Example getpropval_raw_value :
  fst (ZFSDataset.getpropval Sample.clone "origin" (Some "unset") Sample.start)
  = Ok (Some "tank/data@monday").
Proof. reflexivity. Qed.

(** When the tool answers the query with the one line for this dataset
    and property, [getprop] returns the value and source of that
    line. *)
Lemma getprop_single_line (self : entity) (prop v src : string) (w : World) :
  oracle w (log w) (getprop_call self prop) = Ok [[name self; prop; v; src]] ->
  ZFSDataset.getprop self prop w
  = (Ok (Some (v, src)), mkWorld (oracle w) (log w ++ [getprop_call self prop])).
Proof.
  intros Hans. unfold ZFSDataset.getprop, findprops, bind, lift, check_output.
  cbn [depth_flags Z.leb Z.compare opt_flag Py.truthy_list app Py.join
       String.concat].
  change (Py.str_int 0) with "0".
  unfold getprop_call in Hans. cbn [app] in Hans. rewrite Hans.
  cbn [props_of_table forallb has_four andb fold_left add_row].
  rewrite lookup_empty. cbn [default or_raise].
  rewrite (lookup_insert_eq (M := gmap string)). cbn [or_raise].
  unfold ret, getprop_call. cbn [app].
  now rewrite (lookup_insert_eq (M := gmap string)).
Qed.

(** ** Operations a kind does not have (claim C8) *)

(** C8: on a snapshot, [snapshots] and [snapshot] raise
    [OperationNotAllowedError]; on a volume, [filesystems] and
    [volumes] do; in each case the world is left as it was, so no
    command has been issued. *)
Theorem kind_restricted_operations
    (n : string) (s : option SSH) (max_depth : option Z)
    (label : string) (recursive : bool) (props : list (string * string))
    (w : World) :
  snapshots (Entity Snapshot n s) max_depth w = (Raise OperationNotAllowedError, w)
  /\ snapshot (Entity Snapshot n s) label recursive props w
     = (Raise OperationNotAllowedError, w)
  /\ filesystems (Entity Volume n s) max_depth w
     = (Raise OperationNotAllowedError, w)
  /\ volumes (Entity Volume n s) max_depth w
     = (Raise OperationNotAllowedError, w).
Proof. repeat split. Qed.

(** The same operations do reach the tool on a filesystem. *)
Example filesystem_snapshots_asks_the_tool :
  map call_argv (log (snd (snapshots Sample.clone (Some 1) Sample.start)))
  = [["zfs"; "list"; "-H"; "-d"; "1"; "-t"; "snapshot"; "-o"; "name,type";
      "tank/clone"]].
Proof. reflexivity. Qed.

(** ** Equality of handles (claim C9) *)

(** C9: when the two guid queries fetched the raw values [g1] and [g2],
    the comparison of the two handles returns whether [g1] and [g2] are
    equal; the names of the handles play no part. *)
Theorem eq_by_guid
    (a b : entity) (w w1 w2 : World) (g1 s1 g2 s2 : string) :
  ZFSDataset.getprop a "guid" w = (Ok (Some (g1, s1)), w1) ->
  ZFSDataset.getprop b "guid" w1 = (Ok (Some (g2, s2)), w2) ->
  ZFSDataset.__eq__ a (Some b) w = (Ok (bool_decide (g1 = g2)), w2).
Proof.
  intros Ha Hb.
  unfold ZFSDataset.__eq__, ZFSDataset.guid, ZFSDataset.getpropval.
  rewrite (bind_ok _ _ w (if bool_decide (g1 = "-") then None else Some g1) w1).
  2: { rewrite (bind_ok _ _ _ _ _ Ha). reflexivity. }
  rewrite (bind_ok _ _ w1 (if bool_decide (g2 = "-") then None else Some g2) w2).
  2: { rewrite (bind_ok _ _ _ _ _ Hb). reflexivity. }
  unfold ret. do 2 f_equal.
  repeat case_bool_decide; congruence.
Qed.

(** Two handles with different names and one guid are equal. *)
Lemma eq_by_guid_witness :
  name Sample.clone <> name Sample.renamed
  /\ ZFSDataset.__eq__ Sample.clone (Some Sample.renamed) Sample.start
     = (Ok (bool_decide ("7302" = "7302")),
        mkWorld Sample.pool
          [Call None (Sample.get0 "guid" "tank/clone");
           Call None (Sample.get0 "guid" "tank/moved")]).
Proof.
  split; [discriminate |].
  apply (eq_by_guid Sample.clone Sample.renamed Sample.start
           (mkWorld Sample.pool [Call None (Sample.get0 "guid" "tank/clone")])
           _ "7302" "-" "7302" "-"); reflexivity.
Defined.

Example different_guids_differ :
  fst (ZFSDataset.__eq__ Sample.clone (Some Sample.snap) Sample.start) = Ok false.
Proof. reflexivity. Qed.

(** ** Clones of a snapshot (claim C10) *)

(** C10: when the [clones] property of a snapshot holds the sentinel
    ['-'], [clones] raises [AttributeError] right after the query
    instead of returning the empty list.  The test for emptiness
    compares a list with a string and is false for every list.  When
    the property holds the empty string, the names split out of it are
    the one-element list with the empty name, which is opened in
    turn: the call returns a list of exactly one handle, whose name is
    empty, or the error of that lookup, and never the empty list. *)
Theorem snapshot_clones_sentinel
    (self : entity) (w w1 : World) (src : string) :
  (ZFSDataset.getprop self "clones" w = (Ok (Some ("-", src)), w1) ->
   ZFSSnapshot.clones self w = (Raise AttributeError, w1))
  /\ (forall (l : list string) (s : string), py_eq (PList l) (PStr s) = false)
  /\ (ZFSDataset.getprop self "clones" w = (Ok (Some ("", src)), w1) ->
      Py.split ","%char "" = [""]
      /\ ZFSSnapshot.clones self w
         = (let* d := open "" (ssh self) None in ret [d]) w1
      /\ (forall w2, ZFSSnapshot.clones self w <> (Ok [], w2))
      /\ (forall l w2, ZFSSnapshot.clones self w = (Ok l, w2) ->
            exists d, l = [d] /\ name d = "")).
Proof.
  split; [| split].
  - intros Hget. unfold ZFSSnapshot.clones, ZFSDataset.getpropval.
    rewrite (bind_ok _ _ w None w1); [reflexivity |].
    now rewrite (bind_ok _ _ _ _ _ Hget).
  - reflexivity.
  - intros Hget.
    assert (Hrun : ZFSSnapshot.clones self w
                   = (let* d := open "" (ssh self) None in ret [d]) w1).
    { unfold ZFSSnapshot.clones, ZFSDataset.getpropval.
      rewrite (bind_ok _ _ w (Some "") w1)
        by now rewrite (bind_ok _ _ _ _ _ Hget).
      cbv beta iota zeta delta [bind lift or_raise ret mapM Py.split py_eq].
      destruct (open "" (ssh self) None w1) as [[d | e] w']; reflexivity. }
    split; [reflexivity |]. split; [exact Hrun |].
    rewrite Hrun. unfold bind.
    destruct (open "" (ssh self) None w1) as [[d | e] w'] eqn:Hopen.
    + split; [discriminate |]. intros l w2 [= <- <-].
      exists d. split; [reflexivity |].
      unfold open, bind, ret, lift in Hopen.
      destruct (findprops _ _ _ _ _ _ w1) as [[dict | ?] ?]; [| discriminate].
      destruct (or_raise KeyError (dict !! "")) as [props | ?]; [| discriminate].
      destruct (or_raise KeyError (props !! "type")) as [vs | ?]; [| discriminate].
      destruct (kind_of_type (fst vs)); [| discriminate].
      now injection Hopen as <- _.
    + split; discriminate.
Qed.

Lemma snapshot_clones_sentinel_witness :
  ZFSSnapshot.clones (Entity Snapshot "tank/data@tuesday" None) Sample.start
  = (Raise AttributeError,
     mkWorld Sample.pool [Call None (Sample.get0 "clones" "tank/data@tuesday")]).
Proof.
  apply (proj1 (snapshot_clones_sentinel
                  (Entity Snapshot "tank/data@tuesday" None) Sample.start
                  (mkWorld Sample.pool
                     [Call None (Sample.get0 "clones" "tank/data@tuesday")])
                  "-")).
  reflexivity.
Defined.

Example clones_of_sentinel_raises :
  fst (ZFSSnapshot.clones (Entity Snapshot "tank/data@tuesday" None) Sample.start)
  = Raise AttributeError.
Proof. reflexivity. Qed.

Example clones_of_empty_value_opens_empty_name :
  ZFSSnapshot.clones (Entity Snapshot "tank/data@empty" None) Sample.start
  = (Raise KeyError,
     mkWorld Sample.pool
       [Call None (Sample.get0 "clones" "tank/data@empty");
        Call None ["zfs"; "get"; "-H"; "-p"; "-d"; "0"; "type"]]).
Proof. reflexivity. Qed.

(** ** Promotion (claim C1) *)

(** Without an origin, [promote] returns at once. *)
Lemma promote_without_origin (self : entity) (w w1 : World) :
  ZFSDataset.origin self w = (Ok None, w1) ->
  ZFSDataset.promote self w = (Ok tt, w1).
Proof.
  intros Ho. unfold ZFSDataset.promote.
  now rewrite (bind_ok _ _ _ _ _ Ho).
Qed.

(** With an origin, [promote] ends in the comparison of the origin
    with [None]: the error of the guid query, or [AttributeError]. *)
Lemma promote_with_origin (self d : entity) (w w1 : World) :
  ZFSDataset.origin self w = (Ok (Some d), w1) ->
  ZFSDataset.promote self w
  = match ZFSDataset.guid d w1 with
    | (Ok _, w2) => (Raise AttributeError, w2)
    | (Raise e, w2) => (Raise e, w2)
    end.
Proof.
  intros Ho. unfold ZFSDataset.promote.
  rewrite (bind_ok _ _ _ _ _ Ho).
  unfold ZFSDataset.__eq__, bind, raise.
  destruct (ZFSDataset.guid d w1) as [[g | e] w2]; reflexivity.
Qed.

(** C1, on the code: promoting [tank/clone], whose origin is
    [tank/data@monday], raises [AttributeError] after three property
    queries, and the command [zfs promote] is never issued. *)
Theorem promote_of_a_clone_raises :
  ZFSDataset.promote Sample.clone Sample.start
  = (Raise AttributeError,
     mkWorld Sample.pool
       [Call None (Sample.get0 "origin" "tank/clone");
        Call None (Sample.get0 "type" "tank/data@monday");
        Call None (Sample.get0 "guid" "tank/data@monday")])
  /\ Sample.pool [] (Call None ["zfs"; "promote"; "tank/clone"]) = Ok [].
Proof. split; reflexivity. Qed.

Example promote_without_origin_returns :
  ZFSDataset.promote (Entity Filesystem "tank/data" None) Sample.start
  = (Ok tt, mkWorld Sample.pool [Call None (Sample.get0 "origin" "tank/data")]).
Proof. reflexivity. Qed.

(** ** The size cache (claim C4) *)

Section Cache.

Variables (self : entity) (base : option entity).

(** [estimate] runs the tool once: the dry-run call is appended to the
    log. *)
Lemma estimate_world c w r a' w' :
  ZFSSnapshot.estimate self base c w = (r, a', w') ->
  w' = mkWorld (oracle w) (log w ++ [size_call self base]).
Proof.
  unfold ZFSSnapshot.estimate, check_output, size_call.
  destruct (oracle w (log w) _) as [out | e].
  - destruct (ZFSSnapshot.parse_size out); now intros [= _ _ <-].
  - destruct (ZFSSnapshot.caught e); now intros [= _ _ <-].
Qed.

Lemma estimate_seeded c w r a' w' v :
  c !! ZFSSnapshot.base_key base = Some v ->
  ZFSSnapshot.estimate self base c w = (Ok r, a', w') ->
  exists c', a' = Some c'
    /\ (c' !! ZFSSnapshot.base_key base = Some r
        \/ (r = 0 /\ c' = c)).
Proof.
  intros Hseed. unfold ZFSSnapshot.estimate.
  destruct (check_output _ _ w) as [[out | e] w1].
  - destruct (ZFSSnapshot.parse_size out) as [size | e].
    + intros [= <- <- _]. eexists; split; [reflexivity |].
      left. apply (lookup_insert_eq (M := gmap string)).
    + intros [= <- <- _]. eauto.
  - destruct (ZFSSnapshot.caught e); [| discriminate].
    intros [= <- <- _]. eauto.
Qed.

(** A call that finds its base in the cache returns the stored value
    and leaves the object and the world alone. *)
Lemma stream_size_hit c v w :
  c !! ZFSSnapshot.base_key base = Some v ->
  ZFSSnapshot.stream_size self base (Some c) w = (Ok v, Some c, w).
Proof. intros H. unfold ZFSSnapshot.stream_size. now rewrite H. Qed.

(** X13, the part of claim C4 the code keeps: if the object had its
    cache before the first call, or the first call left an entry for
    the base, the second call returns the same value and does not
    run the tool. *)
Lemma stream_size_repeat a w r a' w' :
  ZFSSnapshot.stream_size self base a w = (Ok r, a', w') ->
  a <> None \/ cached a' base ->
  ZFSSnapshot.stream_size self base a' w' = (Ok r, a', w').
Proof.
  unfold ZFSSnapshot.stream_size at 1.
  destruct a as [c |].
  - destruct (c !! ZFSSnapshot.base_key base) as [v |] eqn:Hc.
    + intros [= <- <- <-] _. now apply stream_size_hit.
    + intros Hrun _.
      destruct (estimate_seeded _ _ _ _ _ 0
                  (lookup_insert_eq (M := gmap string) _ _ _) Hrun)
        as (c' & -> & [Hc' | [-> ->]]).
      * now apply stream_size_hit.
      * apply stream_size_hit, (lookup_insert_eq (M := gmap string)).
  - intros Hrun [Hne | Hin]; [congruence |].
    unfold ZFSSnapshot.estimate in Hrun.
    destruct (check_output _ _ w) as [[out | e] w1].
    + destruct (ZFSSnapshot.parse_size out) as [size | e].
      * injection Hrun as <- <- <-.
        apply stream_size_hit, (lookup_insert_eq (M := gmap string)).
      * injection Hrun as <- <- <-. cbn in Hin.
        rewrite lookup_empty in Hin. now destruct Hin.
    + destruct (ZFSSnapshot.caught e); [| discriminate].
      injection Hrun as <- <- <-. cbn in Hin.
      rewrite lookup_empty in Hin. now destruct Hin.
Qed.

End Cache.

(** C4, on the code: the first call on a fresh snapshot object finds
    the dataset busy and returns 0 without leaving an entry in the new
    cache; the second call with the same base runs the tool again and
    returns 4096. *)
Theorem first_failure_is_not_cached :
  let w0 := mkWorld Sample.busy_once [] in
  let first := ZFSSnapshot.stream_size Sample.snap None None w0 in
  let second :=
    ZFSSnapshot.stream_size Sample.snap None (snd (fst first)) (snd first) in
  fst (fst first) = Ok 0
  /\ snd (fst first) = Some ∅
  /\ invocations (snd first) = 1%nat
  /\ fst (fst second) = Ok 4096
  /\ invocations (snd second) = 2%nat.
Proof. repeat split; reflexivity. Qed.

(** On an object whose cache already exists the same failure is stored
    as 0, and the second call does not run the tool. *)
Example later_failure_is_cached :
  let w0 := mkWorld Sample.busy_once [] in
  let first := ZFSSnapshot.stream_size Sample.snap None (Some ∅) w0 in
  let second :=
    ZFSSnapshot.stream_size Sample.snap None (snd (fst first)) (snd first) in
  fst (fst first) = Ok 0
  /\ snd (fst first) = Some {["None" := 0]}
  /\ fst (fst second) = Ok 0
  /\ invocations (snd second) = 1%nat.
Proof. repeat split; reflexivity. Qed.

(** ** Failures of the size estimate (claim C5) *)

Lemma digit_val_nonneg a d : Py.digit_val a = Some d -> 0 <= d.
Proof.
  unfold Py.digit_val.
  destruct (48 <=? Z.of_N (N_of_ascii a)) eqn:Hlo; cbn; [| discriminate].
  destruct (Z.of_N (N_of_ascii a) <=? 57); [| discriminate].
  intros [= <-]. apply Z.leb_le in Hlo. lia.
Qed.

(** Unsigned digits never yield a negative number. *)
Lemma digits_nonneg s : forall acc prev n,
  0 <= acc -> Py.digits acc prev s = Some n -> 0 <= n.
Proof.
  induction s as [| a s IH]; intros acc prev n Hacc; cbn.
  - destruct prev; [now intros [= <-] | discriminate].
  - destruct (Py.digit_val a) as [d |] eqn:Hd.
    + apply IH. pose proof (digit_val_nonneg _ _ Hd). lia.
    + destruct (Ascii.eqb a "_" && prev); [now apply IH | discriminate].
  Qed.

Lemma limited_digits_nonneg r n : Py.limited_digits r = Some n -> 0 <= n.
Proof.
  unfold Py.limited_digits.
  destruct (Py.digit_count r <=? Py.max_str_digits)%nat; [| discriminate].
  now apply digits_nonneg.
Qed.

(** [int] returns a negative number only for a text that, once its
    characters are brought to ASCII and its blanks stripped, starts
    with a minus sign. *)
Lemma int_negative s n :
  Py.int s = Some n -> n < 0 ->
  exists t r, Py.to_ascii s = Some t /\ Py.strip t = String "-"%char r.
Proof.
  unfold Py.int. destruct (Py.to_ascii s) as [t |]; [| discriminate].
  destruct (Py.strip t) as [| a r] eqn:Hstrip; intros Hint Hneg.
  - apply limited_digits_nonneg in Hint. lia.
  - destruct (Ascii.eqb a "-"%char) eqn:Hminus.
    + apply Ascii.eqb_eq in Hminus. subst a. exists t, r.
      split; [reflexivity | exact Hstrip].
    + exfalso.
      assert (Hd : Py.limited_digits r = Some n
                   \/ Py.limited_digits (String a r) = Some n).
      { destruct a as [[] [] [] [] [] [] [] []]; try discriminate Hminus;
          auto. }
      destruct Hd as [Hd | Hd]; apply limited_digits_nonneg in Hd; lia.
Qed.

(** The size is parsed from the final word of the answer. *)
Lemma parse_size_final_word (out : table) :
  ZFSSnapshot.parse_size out
  = match final_word out with
    | None => Raise IndexError
    | Some tok => or_raise ValueError (Py.int tok)
    end.
Proof.
  unfold ZFSSnapshot.parse_size, final_word.
  destruct (Py.last_item out) as [row |]; [| reflexivity].
  destruct (Py.last_item row) as [field |]; [| reflexivity].
  now destruct (Py.last_item (Py.split " " field)).
Qed.

(** C5, as the claim has it, fails on the sign: when the last line of
    the dry run ends in [-5] the call succeeds, the text parses, and
    the estimate is the negative number. *)
Lemma negative_estimate :
  let w0 := mkWorld (Sample.prints ["size"; "-5"]) [] in
  oracle w0 (log w0) (size_call Sample.snap None)
  = Ok [["full"; "tank/data@monday"]; ["size"; "-5"]]
  /\ Py.int "-5" = Some (-5)
  /\ fst (fst (ZFSSnapshot.stream_size Sample.snap None None w0)) = Ok (-5)
  /\ -5 < 0.
Proof. repeat split. Qed.

(** C5, amended: on a call that runs the tool, a dry run that fails
    with [DatasetNotFoundError], [DatasetBusyError] or
    [CalledProcessError] gives 0 and raises nothing; so does an answer
    that has no final word (no line, or an empty last line), and one
    whose final word [int] does not parse; otherwise the estimate is
    the integer [int] reads from the final word, the last
    space-separated word of the last field of the last line, and it is
    negative only if that very word, blanks aside, starts with a minus
    sign.  In every case the tool has been run once. *)
Theorem stream_size_degrades
    (self : entity) (base : option entity) (a : attrs) (w : World) :
  cache_miss a base ->
  let run := ZFSSnapshot.stream_size self base a w in
  let answer := oracle w (log w) (size_call self base) in
  (forall e, answer = Raise e -> ZFSSnapshot.caught e = true ->
     fst (fst run) = Ok 0)
  /\ (forall out, answer = Ok out -> final_word out = None ->
        fst (fst run) = Ok 0)
  /\ (forall out tok, answer = Ok out -> final_word out = Some tok ->
        Py.int tok = None -> fst (fst run) = Ok 0)
  /\ (forall out tok n, answer = Ok out -> final_word out = Some tok ->
        Py.int tok = Some n ->
        fst (fst run) = Ok n
        /\ (n < 0 -> exists t r,
              Py.to_ascii tok = Some t /\ Py.strip t = String "-"%char r))
  /\ (forall out, ZFSSnapshot.parse_size out
                  = match final_word out with
                    | None => Raise IndexError
                    | Some tok => or_raise ValueError (Py.int tok)
                    end)
  /\ log (snd run) = log w ++ [size_call self base].
Proof.
  intros Hmiss. cbv zeta.
  assert (Hrun : exists c,
             ZFSSnapshot.stream_size self base a w
             = ZFSSnapshot.estimate self base c w).
  { unfold ZFSSnapshot.stream_size. destruct a as [c |]; cbn in Hmiss.
    - rewrite Hmiss. eauto.
    - eauto. }
  destruct Hrun as [c ->].
  unfold ZFSSnapshot.estimate, check_output. fold (size_call self base).
  split; [| split; [| split; [| split; [| split]]]].
  - intros e -> ->. reflexivity.
  - intros out -> Hword. now rewrite parse_size_final_word, Hword.
  - intros out tok -> Hword Hint.
    now rewrite parse_size_final_word, Hword, Hint.
  - intros out tok n -> Hword Hint.
    rewrite parse_size_final_word, Hword, Hint. split; [reflexivity |].
    intros Hneg. exact (int_negative _ _ Hint Hneg).
  - apply parse_size_final_word.
  - destruct (oracle w (log w) (size_call self base)) as [out | e].
    + destruct (ZFSSnapshot.parse_size out); reflexivity.
    + destruct (ZFSSnapshot.caught e); reflexivity.
Qed.

(** A busy dataset: the estimate is 0, the tool ran once. *)
Lemma stream_size_degrades_witness :
  fst (fst (ZFSSnapshot.stream_size Sample.snap None None
              (mkWorld Sample.busy_once []))) = Ok 0.
Proof.
  apply (proj1 (stream_size_degrades Sample.snap None None
                  (mkWorld Sample.busy_once []) I) DatasetBusyError);
    reflexivity.
Defined.

Example stream_size_reads_last_word :
  fst (fst (ZFSSnapshot.stream_size Sample.snap None None
              (mkWorld (Sample.prints ["size"; "incremental 1048576"]) [])))
  = Ok 1048576.
Proof. reflexivity. Qed.

(** The final word is the last one: earlier lines, fields and words
    are not read; and a control byte before the digits is no blank. *)
Example stream_size_reads_final_word_only :
  fst (fst (ZFSSnapshot.stream_size Sample.snap None None
              (mkWorld (Answers.always
                          (Ok [["size"; "11"]; ["22 33"; "44 55 66"]])) [])))
  = Ok 66
  /\ fst (fst (ZFSSnapshot.stream_size Sample.snap None None
                 (mkWorld (Sample.prints ["size"; Py.of_bytes [31] +:+ "1048576"])
                    []))) = Ok 0.
Proof. split; reflexivity. Qed.

Example stream_size_unparsable :
  fst (fst (ZFSSnapshot.stream_size Sample.snap None None
              (mkWorld (Sample.prints ["size"; "12K"]) []))) = Ok 0
  /\ fst (fst (ZFSSnapshot.stream_size Sample.snap None None
                 (mkWorld (fun _ _ => Ok []) []))) = Ok 0.
Proof. split; reflexivity. Qed.

(** ** From [send] to its pipeline *)

(** [send] hands to the shell the words built for the size that
    [stream_size] returned, joined by spaces. *)
Lemma send_builds_for_estimate
    (env : Local) (self : entity) (ssh_dest : option SSH) (base : option entity)
    (i r p d raw : bool) (a a' : attrs) (w w' : World) (argv : list string) :
  ZFSSnapshot.send env self ssh_dest base i r p d raw a w = (Ok argv, a', w') ->
  exists size,
    ZFSSnapshot.stream_size self base a w = (Ok size, a', w')
    /\ argv = match ssh self with Some s => cmd s | None => SHELL end
              ++ [Py.join " " (pipe (map snd (send_stages env self ssh_dest base
                                                 i r p d raw size)))].
Proof.
  unfold ZFSSnapshot.send, ZFSSnapshot.send_argv.
  destruct (ZFSSnapshot.stream_size self base a w) as [[[size | e] a1] w1];
    [| discriminate].
  intros [= <- <- <-]. exists size. now rewrite send_words_stages.
Qed.

(** Two remote hosts that negotiated different tools: no compression
    stage, and a command all the same. *)
Example differing_vectors_drop_compression :
  let self := Entity Snapshot "tank/data@monday" (Some Sample.backup) in
  has_stage Compression
    (send_stages Sample.tools self (Some Sample.archive) None
       false false false false false 0) = false
  /\ ZFSSnapshot.send_argv Sample.tools self (Some Sample.archive) None
       false false false false false 0
     = ["ssh"; "root@backup"; "zfs send tank/data@monday"]
  /\ receive Sample.tools "backup/data" (Some Sample.archive) (Some Sample.backup)
       false false false false 0 false
     = ["ssh"; "root@archive"; "zfs receive backup/data"].
Proof. repeat split; reflexivity. Qed.

(** A remote transfer of three hundred mebibytes, both sides. *)
Example remote_transfer_commands :
  ZFSSnapshot.send_argv Sample.tools Sample.snap (Some Sample.backup) None
    false false false false false (300 * MiB)
  = ["sh"; "-c";
     "zfs send tank/data@monday | mbuffer -q -s 128K -m 256M | pv -f -w 100 -s 314572800 -D 60 -i 60 | lzop"]
  /\ receive Sample.tools "backup/data" (Some Sample.backup) None
       false false true false (300 * MiB) false
     = ["ssh"; "root@backup";
        "mbuffer -q -s 128K -m 256M | lzop -dfc | zfs receive -F backup/data"].
Proof. split; reflexivity. Qed.

(** * Further properties of the module *)

(** ** Splitting and joining names *)

Lemma split_nonempty c s : Py.split c s <> [].
Proof.
  destruct s as [| a r]; cbn; [discriminate |].
  destruct (Ascii.eqb a c); [discriminate |].
  destruct (Py.split c r); discriminate.
Qed.

Lemma split_cons_other c a r :
  Ascii.eqb a c = false ->
  exists h t, Py.split c r = h :: t /\ Py.split c (String a r) = String a h :: t.
Proof.
  intros Hac. cbn. rewrite Hac.
  destruct (Py.split c r) as [| h t] eqn:Hs; [now apply split_nonempty in Hs |].
  eauto.
Qed.

(** Joining the pieces of a split with the separator gives the text
    back. *)
Lemma join_split c s : Py.join (String c EmptyString) (Py.split c s) = s.
Proof.
  unfold Py.join. induction s as [| a r IH]; [reflexivity |].
  destruct (Ascii.eqb a c) eqn:Hac.
  - cbn [Py.split]. rewrite Hac. apply Ascii.eqb_eq in Hac. subst a.
    destruct (Py.split c r) as [| h t] eqn:Hs; [now apply split_nonempty in Hs |].
    transitivity (String c (String.concat (String c EmptyString) (h :: t)));
      [reflexivity | now rewrite IH].
  - destruct (split_cons_other c a r Hac) as (h & t & Hs & ->).
    rewrite Hs in IH. destruct t; cbn [String.concat] in *; now rewrite <- IH.
Qed.

(** A text without the separator is its own single piece, and only
    such a text splits into one piece. *)
Lemma split_single c s :
  (length (Py.split c s) =? 1)%nat = negb (Py.contains c s).
Proof.
  unfold Py.contains. induction s as [| a r IH]; [reflexivity |].
  cbn [Py.split list_ascii_of_string existsb].
  rewrite (Ascii.eqb_sym c a).
  destruct (Ascii.eqb a c) eqn:Hac; cbn [orb negb].
  - cbn [length]. destruct (Py.split c r) eqn:Hs;
      [now apply split_nonempty in Hs | reflexivity].
  - rewrite <- IH. destruct (Py.split c r) eqn:Hs;
      [now apply split_nonempty in Hs | reflexivity].
Qed.

Lemma split_without c s : Py.contains c s = false -> Py.split c s = [s].
Proof.
  intros Hc. pose proof (split_single c s) as Hlen. rewrite Hc in Hlen.
  pose proof (join_split c s) as Hjoin.
  destruct (Py.split c s) as [| h [| h' t]]; try discriminate Hlen.
  cbn in Hjoin. now subst.
Qed.

(** Splitting [x], the separator, [y]: the pieces of [y] come last. *)
Lemma split_app_sep c x y :
  exists init, init <> []
    /\ Py.split c (x +:+ String c y) = init ++ Py.split c y.
Proof.
  induction x as [| a x IH]; simpl.
  - rewrite Ascii.eqb_refl. exists [EmptyString]. split; [discriminate | reflexivity].
  - destruct IH as (init & Hne & ->).
    destruct (Ascii.eqb a c).
    + exists (EmptyString :: init). split; [discriminate | reflexivity].
    + destruct init as [| h t]; [congruence |].
      exists (String a h :: t). split; [discriminate | reflexivity].
Qed.

(** When [x] has no separator it is the first piece. *)
Lemma split_app_first c x y :
  Py.contains c x = false ->
  Py.split c (x +:+ String c y) = x :: Py.split c y.
Proof.
  unfold Py.contains.
  induction x as [| a x IH]; simpl.
  - intros _. now rewrite Ascii.eqb_refl.
  - rewrite (Ascii.eqb_sym c a). intros [Hac Hx]%orb_false_elim.
    rewrite Hac, (IH Hx). reflexivity.
Qed.

(** The first piece of a split has no separator in it. *)
Lemma split_head_clean c s h :
  Py.first_item (Py.split c s) = Some h -> Py.contains c h = false.
Proof.
  unfold Py.first_item, Py.contains. revert h.
  induction s as [| a r IH]; intros h; cbn [Py.split].
  - now intros [= <-].
  - destruct (Ascii.eqb a c) eqn:Hac.
    + now intros [= <-].
    + destruct (Py.split c r) as [| h' t] eqn:Hs;
        [now apply split_nonempty in Hs |].
      intros [= <-]. cbn [list_ascii_of_string existsb].
      rewrite (Ascii.eqb_sym c a), Hac. now apply IH.
Qed.

Lemma last_item_app {A} (l l' : list A) :
  l' <> [] -> Py.last_item (l ++ l') = Py.last_item l'.
Proof.
  unfold Py.last_item. intros Hne. rewrite map_app.
  destruct l' as [| x l']; [congruence |].
  induction l as [| y l IH]; [reflexivity |].
  cbn [map app List.last] in *. rewrite <- IH.
  destruct (map Some l ++ Some x :: map Some l') eqn:Hl; [| reflexivity].
  now destruct (map Some l).
Qed.

(** ** Names of snapshots (rollback, snapshot, rename) *)

(** X1: [rollback] passes a snapshot name that has an [@] unchanged,
    and puts the dataset's own name and [@] before a bare label. *)
Theorem rollback_target_resolves (self : entity) (snapname : string) :
  ZFSDataset.rollback_target self snapname
  = if Py.contains "@"%char snapname then snapname
    else name self +:+ "@" +:+ snapname.
Proof.
  unfold ZFSDataset.rollback_target. rewrite split_single.
  destruct (Py.contains "@" snapname) eqn:Hc; cbn [negb].
  - apply (join_split "@"%char).
  - rewrite (split_without _ _ Hc). reflexivity.
Qed.

(** X2: the handle [snapshot] returns is a snapshot on the same
    endpoint whose name is the dataset's name, [@], the label; its
    [snapname] is the label when the label has no [@], and the path
    before its first [@] is the dataset's name when that name has
    none. *)
Theorem snapshot_handle_round_trip
    (self : entity) (label : string) (recursive : bool)
    (props : list (string * string)) (w w' : World) (d : entity) :
  ZFSDataset.snapshot self label recursive props w = (Ok d, w') ->
  d = Entity Snapshot (name self +:+ "@" +:+ label) (ssh self)
  /\ (Py.contains "@"%char label = false -> ZFSSnapshot.snapname d = label)
  /\ (Py.contains "@"%char (name self) = false ->
      Py.first_item (Py.split "@"%char (name d)) = Some (name self)).
Proof.
  unfold ZFSDataset.snapshot, bind, ret.
  destruct (check_output _ _ w) as [[out | e] w1]; [| discriminate].
  intros [= <- _]. split; [reflexivity |]. split.
  - intros Hl. unfold ZFSSnapshot.snapname. cbn [name].
    destruct (split_app_sep "@"%char (name self) label) as (init & Hne & Hs).
    change (name self +:+ "@" +:+ label)
      with (name self +:+ String "@"%char label).
    rewrite Hs, last_item_app by apply split_nonempty.
    now rewrite (split_without _ _ Hl).
  - intros Hn. cbn [name].
    change (name self +:+ "@" +:+ label)
      with (name self +:+ String "@"%char label).
    now rewrite (split_app_first _ _ _ Hn).
Qed.

Lemma snapshot_handle_round_trip_witness :
  ZFSSnapshot.snapname (Entity Snapshot "tank/clone@monday" None) = "monday".
Proof.
  refine (proj1 (proj2 (snapshot_handle_round_trip Sample.clone "monday" false []
                          (mkWorld (fun _ _ => Ok []) [])
                          (mkWorld (fun _ _ => Ok [])
                             [Call None ["zfs"; "snapshot"; "tank/clone@monday"]])
                          (Entity Snapshot "tank/clone@monday" None) _)) _);
    reflexivity.
Defined.

(** X3: renaming a snapshot replaces the label only: the new name has
    the same path before its first [@] as the old one, a label without
    [@] is the new [snapname], and [force_parent] and [recursive] make
    no difference to what a snapshot's [rename] does. *)
Theorem rename_snapshot_keeps_dataset
    (n : string) (s : option SSH) (label : string)
    (recursive force_parent force_unmount : bool) :
  let self := Entity Snapshot n s in
  let target := ZFSDataset.rename_target self label in
  Py.first_item (Py.split "@"%char target)
  = Py.first_item (Py.split "@"%char n)
  /\ (Py.contains "@"%char label = false ->
      ZFSSnapshot.snapname (Entity Snapshot target s) = label)
  /\ ZFSDataset.rename self label recursive force_parent force_unmount
     = ZFSDataset.rename self label false false force_unmount.
Proof.
  cbv zeta. unfold ZFSDataset.rename_target. cbn [cls name].
  destruct (Py.first_item (Py.split "@" n)) as [h |] eqn:Hh.
  2: { unfold Py.first_item in Hh.
       destruct (Py.split "@" n) eqn:Hs; [now apply split_nonempty in Hs |].
       discriminate Hh. }
  cbn [default]. unfold id.
  change (h +:+ "@" +:+ label) with (h +:+ String "@"%char label).
  split; [| split].
  - now rewrite (split_app_first _ _ _ (split_head_clean _ _ _ Hh)).
  - intros Hl. unfold ZFSSnapshot.snapname. cbn [name].
    destruct (split_app_sep "@"%char h label) as (init & Hne & Hs).
    rewrite Hs, last_item_app by apply split_nonempty.
    now rewrite (split_without _ _ Hl).
  - reflexivity.
Qed.

(** ** Listings *)

(** Opening a line of a listing never runs the tool. *)
Lemma mapM_open_row (ssh : option SSH) (out : table) (w : World) :
  mapM (open_row ssh) out w = (handles_of_rows ssh out, w).
Proof.
  induction out as [| row rest IH]; [reflexivity |].
  cbn [mapM handles_of_rows]. unfold bind at 1.
  assert (Hrow : open_row ssh row w = (handle_of_row ssh row, w)).
  { unfold open_row, handle_of_row.
    destruct row as [| n [| t [| ? ?]]]; try reflexivity.
    unfold open, bind, ret, lift. now destruct (kind_of_type t). }
  rewrite Hrow. destruct (handle_of_row ssh row) as [d | e]; [| reflexivity].
  unfold bind. rewrite IH.
  now destruct (handles_of_rows ssh rest).
Qed.

(** X4: with a valid depth, [find] runs the listing command once and
    nothing else, whatever the answer; an error of the tool is passed
    on; otherwise every line must be a pair of a name and one of the
    three types, and the result has one handle per line, in order,
    carrying that name, the class of that type and the endpoint that
    was asked. *)
Theorem find_lists_handles
    (path : option string) (endpoint : option SSH) (max_depth : option Z)
    (types depth : list string) (w : World) :
  depth_flags max_depth = Ok depth ->
  let c := find_call path endpoint depth types in
  find path endpoint max_depth types w
  = (match oracle w (log w) c with
     | Ok out => handles_of_rows endpoint out
     | Raise e => Raise e
     end, after w c)
  /\ (forall out ds, handles_of_rows endpoint out = Ok ds ->
        Forall2 (fun row d => row = [name d; type_name (cls d)]
                              /\ ssh d = endpoint) out ds)
  /\ (forall out e, handles_of_rows endpoint out = Raise e -> e = ValueError).
Proof.
  intros Hd. cbv zeta. split; [| split].
  - unfold find, bind, lift, check_output, find_call, after. rewrite Hd.
    destruct (oracle w (log w) _) as [out | e]; [| reflexivity].
    apply mapM_open_row.
  - induction out as [| row rest IH]; intros ds.
    + intros [= <-]. constructor.
    + cbn [handles_of_rows]. unfold handle_of_row.
      destruct row as [| n [| t [| ? ?]]]; try discriminate.
      unfold kind_of_type.
      destruct (String.eqb t "volume") eqn:Hv;
        [| destruct (String.eqb t "filesystem") eqn:Hf;
           [| destruct (String.eqb t "snapshot") eqn:Hs; [| discriminate]]];
        (destruct (handles_of_rows endpoint rest) as [ds' |]; [| discriminate]);
        intros [= <-]; (constructor; [| now apply IH]); cbn;
        [apply String.eqb_eq in Hv | apply String.eqb_eq in Hf
         | apply String.eqb_eq in Hs]; now subst.
  - induction out as [| row rest IH]; intros e; [discriminate |].
    cbn [handles_of_rows]. unfold handle_of_row.
    destruct row as [| n [| t [| ? ?]]]; try now intros [= <-].
    unfold kind_of_type.
    destruct (String.eqb t "volume");
      [| destruct (String.eqb t "filesystem");
         [| destruct (String.eqb t "snapshot"); [| now intros [= <-]]]];
      (destruct (handles_of_rows endpoint rest); [discriminate | intros [= <-]; now apply IH]).
Qed.

Lemma find_lists_handles_witness :
  fst (find (Some "tank") None (Some 1) []
         (mkWorld (Answers.always (Ok Answers.listing)) []))
  = Ok [Entity Filesystem "tank" None; Entity Filesystem "tank/data" None;
        Entity Volume "tank/vol" None].
Proof.
  rewrite (proj1 (find_lists_handles (Some "tank") None (Some 1) [] ["-d"; "1"]
                    (mkWorld (Answers.always (Ok Answers.listing)) []) eq_refl)).
  reflexivity.
Defined.

(** X5: a negative depth is refused with [TypeError] before any command
    is issued, by [find], by [findprops] and by the listing methods of
    a dataset that pass their depth on. *)
Theorem negative_depth_rejected
    (path : option string) (endpoint : option SSH) (d : Z)
    (props sources types : list string) (self : entity) (w : World) :
  d < 0 ->
  find path endpoint (Some d) types w = (Raise TypeError, w)
  /\ findprops path endpoint (Some d) props sources types w = (Raise TypeError, w)
  /\ ZFSDataset.filesystems self (Some d) w = (Raise TypeError, w)
  /\ ZFSDataset.volumes self (Some d) w = (Raise TypeError, w)
  /\ ZFSDataset.snapshots self (Some d) w = (Raise TypeError, w)
  /\ ZFSDataset.children self (Some d) w = (Raise TypeError, w).
Proof.
  intros Hd.
  assert (Hflags : depth_flags (Some d) = Raise TypeError).
  { unfold depth_flags. now rewrite (proj2 (Z.leb_gt 0 d) Hd). }
  unfold ZFSDataset.filesystems, ZFSDataset.volumes, ZFSDataset.snapshots,
    ZFSDataset.children, find, findprops, bind, lift.
  rewrite Hflags. repeat split.
Qed.

Lemma negative_depth_rejected_witness :
  find (Some "tank") None (Some (-1)) [] Sample.start
  = (Raise TypeError, Sample.start).
Proof.
  apply (negative_depth_rejected (Some "tank") None (-1) [] [] []
           Sample.clone Sample.start).
  reflexivity.
Defined.

(** ** Property dictionaries *)

Lemma prop_lookup_add_row (d : propdict) (row : list string) (n p : string) :
  has_four row = true ->
  prop_lookup (add_row d row) n p
  = match row with
    | n' :: p' :: v :: s :: _ =>
        if bool_decide (n' = n) && bool_decide (p' = p) then Some (v, s)
        else prop_lookup d n p
    | _ => prop_lookup d n p
    end.
Proof.
  destruct row as [| n' [| p' [| v [| s rest]]]]; try discriminate. intros _.
  unfold add_row, prop_lookup.
  destruct (decide (n' = n)) as [-> | Hn].
  - rewrite (lookup_insert_eq (M := gmap string)).
    rewrite bool_decide_eq_true_2 by reflexivity. cbn [andb].
    destruct (decide (p' = p)) as [-> | Hp].
    + rewrite (lookup_insert_eq (M := gmap string)).
      now rewrite bool_decide_eq_true_2.
    + rewrite (lookup_insert_ne (M := gmap string)) by exact Hp.
      rewrite bool_decide_eq_false_2 by exact Hp.
      destruct (d !! n); [reflexivity | apply lookup_empty].
  - rewrite (lookup_insert_ne (M := gmap string)) by exact Hn.
    now rewrite (bool_decide_eq_false_2 _ Hn).
Qed.

Lemma prop_lookup_fold (out : table) : forall (d : propdict) (n p : string),
  forallb has_four out = true ->
  prop_lookup (fold_left add_row out d) n p
  = match last_line n p out with
    | Some vs => Some vs
    | None => prop_lookup d n p
    end.
Proof.
  induction out as [| row rest IH]; intros d n p Hall; [reflexivity |].
  cbn [forallb] in Hall. apply andb_true_iff in Hall as [Hrow Hrest].
  cbn [fold_left last_line]. rewrite (IH _ _ _ Hrest).
  destruct (last_line n p rest); [reflexivity |].
  rewrite (prop_lookup_add_row _ _ _ _ Hrow).
  destruct row as [| n' [| p' [| v [| s ?]]]]; try discriminate Hrow.
  now destruct (bool_decide (n' = n) && bool_decide (p' = p)).
Qed.

Lemma named_add_row (d : propdict) (row : list string) (n : string) :
  has_four row = true ->
  is_Some (add_row d row !! n)
  <-> bool_decide (head row = Some n) = true \/ is_Some (d !! n).
Proof.
  destruct row as [| n' [| p' [| v [| s rest]]]]; try discriminate. intros _.
  unfold add_row. cbn [head].
  destruct (decide (n' = n)) as [-> | Hn].
  - rewrite (lookup_insert_eq (M := gmap string)).
    rewrite bool_decide_eq_true_2 by reflexivity. split; eauto.
  - rewrite (lookup_insert_ne (M := gmap string)) by exact Hn.
    rewrite bool_decide_eq_false_2 by congruence.
    split; [auto | now intros [? | ?]].
Qed.

Lemma named_fold (out : table) : forall (d : propdict) (n : string),
  forallb has_four out = true ->
  is_Some (fold_left add_row out d !! n)
  <-> names_dataset n out = true \/ is_Some (d !! n).
Proof.
  unfold names_dataset.
  induction out as [| row rest IH]; intros d n Hall.
  - cbn. split; [auto | now intros [? | ?]].
  - cbn [forallb] in Hall. apply andb_true_iff in Hall as [Hrow Hrest].
    cbn [fold_left existsb]. rewrite (IH _ _ Hrest), (named_add_row _ _ _ Hrow).
    rewrite orb_true_iff. tauto.
Qed.

(** X6: when every line of the answer has at least four fields, the
    dictionary [findprops] builds holds, for a dataset and a property,
    the value and source of the last line that speaks of them, and has
    an entry for a dataset exactly when some line starts with its name;
    a line with fewer than four fields makes the whole answer an
    [IndexError]. *)
Theorem props_of_table_lookup (out : table) :
  (forallb has_four out = false -> props_of_table out = Raise IndexError)
  /\ (forallb has_four out = true ->
      exists d, props_of_table out = Ok d
        /\ (forall n p, prop_lookup d n p = last_line n p out)
        /\ (forall n, is_Some (d !! n) <-> names_dataset n out = true)).
Proof.
  unfold props_of_table. split; intros Hall; rewrite Hall; [reflexivity |].
  eexists. split; [reflexivity |]. split.
  - intros n p. rewrite (prop_lookup_fold _ _ _ _ Hall).
    unfold prop_lookup. rewrite lookup_empty. now destruct (last_line n p out).
  - intros n. rewrite (named_fold _ _ _ Hall). rewrite lookup_empty.
    split; [intros [? | [? [=]]]; assumption | auto].
Qed.

Lemma props_of_table_lookup_witness :
  exists d, props_of_table Answers.properties = Ok d
    /\ (forall n p, prop_lookup d n p = last_line n p Answers.properties)
    /\ (forall n, is_Some (d !! n) <-> names_dataset n Answers.properties = true).
Proof.
  apply (proj2 (props_of_table_lookup Answers.properties)). reflexivity.
Defined.

Example last_line_wins :
  last_line "tank/data" "compression" Answers.properties = Some ("zstd", "local")
  /\ last_line "tank/data" "mountpoint" Answers.properties = None
  /\ names_dataset "tank/none" Answers.properties = false.
Proof. repeat split. Qed.

(** ** What a property query can end in *)

(** X7: [getpropval] runs one query.  When the tool answers it,
    a line with fewer than four fields gives [IndexError]; an answer
    without a line for this dataset gives [KeyError]; an answer that
    names the dataset but not the property gives [TypeError];
    otherwise the value of the last line for the dataset and property
    is returned, with the sentinel ['-'] replaced by the default. *)
Theorem getpropval_answer
    (self : entity) (prop : string) (dflt : option string)
    (w : World) (out : table) :
  oracle w (log w) (getprop_call self prop) = Ok out ->
  ZFSDataset.getpropval self prop dflt w
  = (if negb (forallb has_four out) then Raise IndexError
     else if negb (names_dataset (name self) out) then Raise KeyError
     else match last_line (name self) prop out with
          | None => Raise TypeError
          | Some (v, _) => Ok (if bool_decide (v = "-") then dflt else Some v)
          end,
     after w (getprop_call self prop)).
Proof.
  intros Hans.
  unfold ZFSDataset.getpropval, ZFSDataset.getprop, findprops, bind, lift,
    check_output, after.
  cbn [depth_flags Z.leb Z.compare opt_flag Py.truthy_list app Py.join
       String.concat].
  change (Py.str_int 0) with "0".
  unfold getprop_call in *. cbn [app] in *. rewrite Hans.
  unfold props_of_table.
  destruct (forallb has_four out) eqn:Hall; cbn [negb]; [| reflexivity].
  pose proof (named_fold out ∅ (name self) Hall) as Hnamed.
  pose proof (prop_lookup_fold out ∅ (name self) prop Hall) as Hlook.
  unfold prop_lookup in Hlook. rewrite lookup_empty in Hnamed, Hlook.
  destruct (fold_left add_row out ∅ !! name self) as [props |] eqn:Hd.
  - assert (Hn : names_dataset (name self) out = true).
    { destruct (proj1 Hnamed (ex_intro _ props eq_refl)) as [H | [? [=]]]; exact H. }
    rewrite Hn. cbn [negb or_raise]. unfold ret. rewrite Hlook.
    destruct (last_line (name self) prop out) as [[v src] |]; reflexivity.
  - destruct (names_dataset (name self) out) eqn:Hn; [| reflexivity].
    destruct (proj2 Hnamed (or_introl eq_refl)) as [? [=]].
Qed.

Lemma getpropval_answer_witness :
  fst (ZFSDataset.getpropval (Entity Filesystem "tank/data" None) "compression"
         None (mkWorld (Answers.always (Ok Answers.properties)) []))
  = Ok (Some "zstd").
Proof.
  rewrite (getpropval_answer (Entity Filesystem "tank/data" None) "compression"
             None (mkWorld (Answers.always (Ok Answers.properties)) [])
             Answers.properties eq_refl).
  reflexivity.
Defined.

Example getpropval_failures :
  let w := mkWorld (Answers.always (Ok Answers.properties)) [] in
  fst (ZFSDataset.getpropval (Entity Filesystem "tank/none" None) "origin" None w)
  = Raise KeyError
  /\ fst (ZFSDataset.getpropval (Entity Filesystem "tank" None) "origin" None w)
     = Raise TypeError
  /\ fst (ZFSDataset.getpropval (Entity Filesystem "tank" None) "origin" None
            (mkWorld (Answers.always (Ok [["tank"; "origin"]])) []))
     = Raise IndexError.
Proof. repeat split. Qed.

(** X17: [origin] returns [None], after its one query, when the
    property holds the sentinel or the empty string, and opens the
    dataset the property names otherwise. *)
Theorem origin_absent_or_opened
    (self : entity) (w w1 : World) (v src : string) :
  ZFSDataset.getprop self "origin" w = (Ok (Some (v, src)), w1) ->
  ZFSDataset.origin self w
  = if bool_decide (v = "-") || bool_decide (v = "")
    then (Ok None, w1)
    else (let* d := open v (ssh self) None in ret (Some d)) w1.
Proof.
  intros Hget. unfold ZFSDataset.origin, ZFSDataset.getpropval.
  rewrite (bind_ok _ _ w (if bool_decide (v = "-") then None else Some v) w1)
    by now rewrite (bind_ok _ _ _ _ _ Hget).
  case_bool_decide; [reflexivity |]. cbn [orb].
  destruct v; [reflexivity |].
  rewrite bool_decide_eq_false_2 by discriminate. reflexivity.
Qed.

Lemma origin_absent_or_opened_witness :
  ZFSDataset.origin (Entity Filesystem "tank/data" None) Sample.start
  = (Ok None,
     mkWorld Sample.pool [Call None (Sample.get0 "origin" "tank/data")]).
Proof.
  apply (origin_absent_or_opened (Entity Filesystem "tank/data" None)
           Sample.start
           (mkWorld Sample.pool [Call None (Sample.get0 "origin" "tank/data")])
           "-" "-").
  reflexivity.
Defined.

(** ** Buffer size and the destination pipeline *)

(** X9: the buffer size is at least 1 and at most the cap of the
    transfer (256 remote, 512 local), does not shrink when the stream
    grows, and is never larger for a remote transfer than for a local
    one of the same size. *)
Theorem mbuff_size_bounds (size size' : Z) (rem : bool) :
  1 <= mbuff_size size rem <= (if rem then 256 else 512)
  /\ (size <= size' -> mbuff_size size rem <= mbuff_size size' rem)
  /\ mbuff_size size true <= mbuff_size size false.
Proof.
  unfold mbuff_size. split; [| split].
  - destruct rem; lia.
  - intros Hle.
    assert (size / MiB <= size' / MiB)
      by (apply Z.div_le_mono; [reflexivity | exact Hle]).
    destruct rem; lia.
  - lia.
Qed.

(** X10: the stages of every destination pipeline are taken, in this
    order, from buffering, decompression, reception; the reception
    stage is always there and comes last; there is never a metering
    stage; and buffering is used only for a remote transfer of at
    least one mebibyte. *)
Theorem receive_stage_order
    (env : Local) (name : string) (endpoint ssh_source : option SSH)
    (e d f u : bool) (size : Z) (raw : bool) :
  let pl := receive_stages env name endpoint ssh_source e d f u size raw in
  in_order [Buffering; Decompression; Reception] (kinds pl) = true
  /\ List.last (kinds pl) Generation = Reception
  /\ has_stage Metering pl = false
  /\ has_stage Generation pl = false
  /\ (has_stage Buffering pl = true ->
      remote ssh_source endpoint = true /\ MiB <= size)
  /\ receive_words env name endpoint ssh_source e d f u size raw
     = pipe (map snd pl).
Proof.
  cbv zeta. unfold has_stage. rewrite receive_kinds, <- receive_words_stages.
  destruct (Py.truthy_obj (endpoint_mbuffer env endpoint)),
    (remote ssh_source endpoint), (MiB <=? size) eqn:Hsize,
    (Py.truthy_optlist (receive_decompress ssh_source endpoint) && negb raw);
    cbn; repeat split; try discriminate; try reflexivity;
    now apply Z.leb_le.
Qed.

(** X11: a raw send passes [-w] to [zfs send] and has no compression
    stage, and the matching receive has no decompression stage,
    whatever the endpoints negotiated. *)
Theorem raw_send_is_uncompressed
    (env : Local) (self : entity) (ssh_dest : option SSH) (base : option entity)
    (i r p d : bool) (size : Z)
    (name : string) (ssh_source : option SSH) (e dd f u : bool) (size' : Z) :
  In "-w" (ZFSSnapshot.send_zfs self base i r p d true)
  /\ has_stage Compression (send_stages env self ssh_dest base i r p d true size)
     = false
  /\ has_stage Decompression
       (receive_stages env name ssh_dest ssh_source e dd f u size' true) = false.
Proof.
  split; [| split].
  - unfold ZFSSnapshot.send_zfs. rewrite !in_app_iff.
    right. right. right. right. left. now left.
  - unfold has_stage. rewrite send_kinds, andb_false_r.
    destruct (Py.truthy_obj (endpoint_mbuffer env (ssh self)) && (MiB <=? size)),
      (Py.truthy_obj (endpoint_pv env (ssh self)) && (MiB <=? size)); reflexivity.
  - unfold has_stage. rewrite receive_kinds, andb_false_r.
    now destruct (Py.truthy_obj (endpoint_mbuffer env ssh_dest)
                  && (remote ssh_source ssh_dest && (MiB <=? size'))).
Qed.

(** ** The size estimate inside [send] *)

(** X12: when the dry run of a call that runs the tool fails with one
    of the three caught errors, [send] still returns a command: the one
    built for size 0, which has neither a buffering nor a metering
    stage.  Any other error of the dry run is raised by [send]. *)
Theorem send_degrades_on_failed_estimate
    (env : Local) (self : entity) (ssh_dest : option SSH) (base : option entity)
    (i r p d raw : bool) (a : attrs) (w : World) (e : exn) :
  cache_miss a base ->
  oracle w (log w) (size_call self base) = Raise e ->
  let w' := after w (size_call self base) in
  let pl := send_stages env self ssh_dest base i r p d raw 0 in
  (ZFSSnapshot.caught e = true ->
   fst (fst (ZFSSnapshot.send env self ssh_dest base i r p d raw a w))
   = Ok (ZFSSnapshot.send_argv env self ssh_dest base i r p d raw 0)
   /\ has_stage Buffering pl = false /\ has_stage Metering pl = false)
  /\ (ZFSSnapshot.caught e = false ->
      fst (fst (ZFSSnapshot.send env self ssh_dest base i r p d raw a w))
      = Raise e)
  /\ snd (ZFSSnapshot.send env self ssh_dest base i r p d raw a w) = w'.
Proof.
  intros Hmiss Hans. cbv zeta.
  assert (Hrun : exists c,
             ZFSSnapshot.stream_size self base a w
             = ZFSSnapshot.estimate self base c w).
  { unfold ZFSSnapshot.stream_size. destruct a as [c |]; cbn in Hmiss.
    - rewrite Hmiss. eauto.
    - eauto. }
  destruct Hrun as [c Hrun].
  unfold ZFSSnapshot.send. rewrite Hrun.
  unfold ZFSSnapshot.estimate, check_output. fold (size_call self base).
  rewrite Hans. split; [| split].
  - intros ->. cbn. split; [reflexivity |].
    unfold has_stage. rewrite send_kinds.
    change (MiB <=? 0) with false. rewrite !andb_false_r.
    now destruct (Py.truthy_optlist (ZFSSnapshot.send_compress (ssh self) ssh_dest)
                  && negb raw).
  - intros ->. reflexivity.
  - now destruct (ZFSSnapshot.caught e).
Qed.

Lemma send_degrades_on_failed_estimate_witness :
  fst (fst (ZFSSnapshot.send Sample.tools Sample.snap (Some Sample.backup) None
              false false false false false None
              (mkWorld Sample.busy_once [])))
  = Ok ["sh"; "-c"; "zfs send tank/data@monday | lzop"].
Proof.
  apply (proj1 (proj1 (send_degrades_on_failed_estimate Sample.tools Sample.snap
                         (Some Sample.backup) None false false false false false
                         None (mkWorld Sample.busy_once []) DatasetBusyError
                         I eq_refl) eq_refl)).
Defined.

(** ** The cache of size estimates *)

Lemma stream_size_repeat_witness :
  let w := mkWorld (Sample.prints ["size"; "4096"]) [] in
  let first := ZFSSnapshot.stream_size Sample.snap None None w in
  ZFSSnapshot.stream_size Sample.snap None (snd (fst first)) (snd first)
  = (Ok 4096, snd (fst first), snd first).
Proof.
  apply (stream_size_repeat Sample.snap None None
           (mkWorld (Sample.prints ["size"; "4096"]) [])).
  - reflexivity.
  - right. cbn. eexists. reflexivity.
Defined.

(** X14: a call of [stream_size] leaves the object with a cache, and
    never adds, changes or removes the entry of another base. *)
Theorem stream_size_keeps_other_entries
    (self : entity) (base : option entity) (a a' : attrs) (w w' : World)
    (r : result Z) :
  ZFSSnapshot.stream_size self base a w = (r, a', w') ->
  exists c', a' = Some c'
    /\ forall k, k <> ZFSSnapshot.base_key base ->
         c' !! k = default ∅ a !! k.
Proof.
  assert (Hest : forall c,
             ZFSSnapshot.estimate self base c w = (r, a', w') ->
             exists c', a' = Some c'
               /\ forall k, k <> ZFSSnapshot.base_key base -> c' !! k = c !! k).
  { intros c. unfold ZFSSnapshot.estimate.
    destruct (check_output _ _ w) as [[out | e] w1].
    - destruct (ZFSSnapshot.parse_size out) as [size | e].
      + intros [= _ <- _]. eexists. split; [reflexivity |].
        intros k Hk. now rewrite (lookup_insert_ne (M := gmap string)).
      + intros [= _ <- _]. eauto.
    - destruct (ZFSSnapshot.caught e); intros [= _ <- _]; eauto. }
  unfold ZFSSnapshot.stream_size. destruct a as [c |]; cbn [default].
  - destruct (c !! ZFSSnapshot.base_key base) as [v |].
    + intros [= _ <- _]. eauto.
    + intros Hrun. destruct (Hest _ Hrun) as (c' & -> & Hc').
      exists c'. split; [reflexivity |]. intros k Hk.
      rewrite (Hc' k Hk). now rewrite (lookup_insert_ne (M := gmap string)).
  - unfold id. intros Hrun. exact (Hest _ Hrun).
Qed.

Lemma stream_size_keeps_other_entries_witness :
  let a : attrs := Some {["tank/data@sunday" := 7]} in
  let run := ZFSSnapshot.stream_size Sample.snap None a
               (mkWorld (Sample.prints ["size"; "4096"]) []) in
  exists c', snd (fst run) = Some c'
    /\ forall k, k <> ZFSSnapshot.base_key None -> c' !! k = default ∅ a !! k.
Proof.
  apply (stream_size_keeps_other_entries Sample.snap None
           (Some {["tank/data@sunday" := 7]}) _
           (mkWorld (Sample.prints ["size"; "4096"]) [])
           (mkWorld (Sample.prints ["size"; "4096"])
              [size_call Sample.snap None]) (Ok 4096)).
  reflexivity.
Defined.

(** X15: [stream_size] raises only what the dry run raised and the
    method does not catch; an unexpected answer never makes it
    raise. *)
Theorem stream_size_raises_only_uncaught
    (self : entity) (base : option entity) (a a' : attrs) (w w' : World)
    (e : exn) :
  ZFSSnapshot.stream_size self base a w = (Raise e, a', w') ->
  oracle w (log w) (size_call self base) = Raise e
  /\ ZFSSnapshot.caught e = false
  /\ cache_miss a base.
Proof.
  assert (Hest : forall c,
             ZFSSnapshot.estimate self base c w = (Raise e, a', w') ->
             oracle w (log w) (size_call self base) = Raise e
             /\ ZFSSnapshot.caught e = false).
  { intros c. unfold ZFSSnapshot.estimate, check_output.
    fold (size_call self base).
    destruct (oracle w (log w) (size_call self base)) as [out | e0].
    - destruct (ZFSSnapshot.parse_size out); discriminate.
    - destruct (ZFSSnapshot.caught e0) eqn:Hc; [discriminate |].
      now intros [= <- _ _]. }
  unfold ZFSSnapshot.stream_size, cache_miss. destruct a as [c |].
  - destruct (c !! ZFSSnapshot.base_key base) as [v |]; [discriminate |].
    intros Hrun. destruct (Hest _ Hrun). auto.
  - intros Hrun. destruct (Hest _ Hrun). auto.
Qed.

Lemma stream_size_raises_only_uncaught_witness :
  ZFSSnapshot.caught (OtherError "timeout") = false.
Proof.
  apply (stream_size_raises_only_uncaught Sample.snap None None (Some ∅)
           (mkWorld (Answers.always (Raise (OtherError "timeout"))) [])
           (mkWorld (Answers.always (Raise (OtherError "timeout")))
              [size_call Sample.snap None])
           (OtherError "timeout")).
  reflexivity.
Defined.

(** ** Parents *)

Lemma rsplit1_without c s : Py.contains c s = false -> Py.rsplit1 c s = None.
Proof.
  unfold Py.contains. induction s as [| a r IH]; [reflexivity |].
  cbn [list_ascii_of_string existsb Py.rsplit1].
  rewrite (Ascii.eqb_sym c a). intros [Hac Hr]%orb_false_elim.
  now rewrite (IH Hr), Hac.
Qed.

Lemma rsplit1_app c h t :
  Py.contains c t = false -> Py.rsplit1 c (h +:+ String c t) = Some (h, t).
Proof.
  intros Ht. induction h as [| a h IH]; simpl.
  - now rewrite (rsplit1_without _ _ Ht), Ascii.eqb_refl.
  - now rewrite IH.
Qed.

(** A handle that [open] returns carries the name and endpoint it was
    asked for. *)
Lemma open_name (n : string) (s : option SSH) (t : option string)
    (w w' : World) (d : entity) :
  open n s t w = (Ok d, w') -> name d = n /\ ssh d = s.
Proof.
  unfold open, bind, ret, lift.
  destruct t as [t |].
  - destruct (kind_of_type t); [| discriminate]. now intros [= <- _].
  - destruct (findprops _ _ _ _ _ _ w) as [[dict | ?] ?]; [| discriminate].
    destruct (or_raise KeyError (dict !! n)) as [props | ?]; [| discriminate].
    destruct (or_raise KeyError (props !! "type")) as [vs | ?]; [| discriminate].
    destruct (kind_of_type (fst vs)); [| discriminate]. now intros [= <- _].
Qed.

(** X16: the parent of a dataset is looked up under what precedes the
    last [/] of its name; a name without [/], or with nothing before
    its only one, has no parent, and then the tool is not asked.  The
    parent of a snapshot is looked up under what precedes the first
    [@]. *)
Theorem parent_of_dataset
    (k : kind) (s : option SSH) (p c : string) (w : World) :
  Py.contains "/"%char c = false ->
  ZFSDataset.parent (Entity k c s) w = (Ok None, w)
  /\ ZFSDataset.parent (Entity k (p +:+ "/" +:+ c) s) w
     = (if Py.truthy_str p
        then (let* d := open p s None in ret (Some d)) w
        else (Ok None, w))
  /\ (Py.contains "@"%char p = false ->
      ZFSSnapshot.parent (Entity Snapshot (p +:+ "@" +:+ c) s) w
      = open p s None w).
Proof.
  intros Hc. unfold ZFSDataset.parent, Py.rpartition. cbn [name ssh].
  rewrite (rsplit1_without _ _ Hc).
  change (p +:+ "/" +:+ c) with (p +:+ String "/"%char c).
  rewrite (rsplit1_app _ _ _ Hc).
  split; [reflexivity |]. split; [now destruct p |].
  intros Hp. unfold ZFSSnapshot.parent. cbn [name ssh].
  change (p +:+ "@" +:+ c) with (p +:+ String "@"%char c).
  now rewrite (split_app_first _ _ _ Hp).
Qed.

Lemma parent_of_dataset_witness :
  ZFSDataset.parent (Entity Filesystem "tank" None) Sample.start
  = (Ok None, Sample.start).
Proof.
  apply (parent_of_dataset Filesystem None "" "tank" Sample.start).
  reflexivity.
Defined.

Example parent_of_nested_dataset :
  map call_argv
    (log (snd (ZFSDataset.parent (Entity Filesystem "tank/a/b" None) Sample.start)))
  = [Sample.get0 "type" "tank/a"].
Proof. reflexivity. Qed.

(** ** Renaming *)

(** X20: [rename] runs the rename command first; when that fails the
    error is raised and no lookup follows; and a handle that [rename]
    returns carries the new name and the endpoint of the old one. *)
Theorem rename_outcome
    (self : entity) (name' : string)
    (recursive force_parent force_unmount : bool) (w : World) :
  let run := ZFSDataset.rename self name' recursive force_parent force_unmount w in
  (exists c,
     call_ssh c = ssh self
     /\ (exists flags, call_argv c
           = ["zfs"; "rename"] ++ flags
             ++ [name self; ZFSDataset.rename_target self name'])
     /\ (forall e, oracle w (log w) c = Raise e -> run = (Raise e, after w c))
     /\ (forall out, oracle w (log w) c = Ok out ->
           run = open (ZFSDataset.rename_target self name') (ssh self) None
                   (after w c)))
  /\ (forall d w', run = (Ok d, w') ->
        name d = ZFSDataset.rename_target self name' /\ ssh d = ssh self).
Proof.
  cbv zeta. unfold ZFSDataset.rename, bind, check_output. split.
  - exists (Call (ssh self)
              ((["zfs"; "rename"]
                ++ match cls self with
                   | Snapshot => []
                   | _ => if force_parent then ["-p"] else []
                   end
                ++ (if force_unmount then ["-f"] else [])
                ++ [name self])
               ++ [ZFSDataset.rename_target self name'])).
    cbn [call_ssh call_argv].
    split; [reflexivity |]. split.
    + exists (match cls self with
              | Snapshot => []
              | _ => if force_parent then ["-p"] else []
              end ++ (if force_unmount then ["-f"] else [])).
      cbn [app]. now rewrite <- !app_assoc.
    + split; [intros e -> | intros out ->]; reflexivity.
  - intros d w'. destruct (oracle w (log w) _) as [out | e]; [| discriminate].
    apply open_name.
Qed.

(** ** Listing the datasets below one *)

(** X21: [filesystems] drops the first handle of the listing, the
    dataset itself: an empty listing gives the empty list, not an
    error; a listing whose first line is good gives the handles of the
    other lines; and a first line that is not a pair of a name and a
    known type still raises [ValueError] although it would be
    dropped. *)
Theorem filesystems_skips_first
    (self : entity) (max_depth : option Z) (depth : list string) (w : World) :
  depth_flags max_depth = Ok depth ->
  cls self <> Volume ->
  let c := find_call (Some (name self)) (ssh self) depth ["filesystem"] in
  snd (filesystems self max_depth w) = after w c
  /\ (oracle w (log w) c = Ok [] -> fst (filesystems self max_depth w) = Ok [])
  /\ (forall row rest d,
        oracle w (log w) c = Ok (row :: rest) ->
        handle_of_row (ssh self) row = Ok d ->
        fst (filesystems self max_depth w) = handles_of_rows (ssh self) rest)
  /\ (forall row rest e,
        oracle w (log w) c = Ok (row :: rest) ->
        handle_of_row (ssh self) row = Raise e ->
        fst (filesystems self max_depth w) = Raise ValueError).
Proof.
  intros Hd Hk. cbv zeta.
  assert (Hrun : filesystems self max_depth w
                 = ZFSDataset.filesystems self max_depth w).
  { unfold filesystems. destruct (cls self); congruence. }
  rewrite Hrun.
  unfold ZFSDataset.filesystems, find, bind, lift, check_output, find_call, after.
  rewrite Hd.
  destruct (oracle w (log w) _) as [out | e0]; [| repeat split; discriminate].
  rewrite mapM_open_row.
  split; [now destruct (handles_of_rows (ssh self) out) |].
  split; [now intros [= ->] |]. split.
  - intros row rest d [= ->] Hrow. cbn [handles_of_rows]. rewrite Hrow.
    now destruct (handles_of_rows (ssh self) rest).
  - intros row rest e [= ->] Hrow. cbn [handles_of_rows]. rewrite Hrow.
    cbn. f_equal. unfold handle_of_row in Hrow.
    destruct row as [| n [| t [| ? ?]]]; try now injection Hrow as <-.
    unfold kind_of_type in Hrow.
    destruct (String.eqb t "volume"); [discriminate |].
    destruct (String.eqb t "filesystem"); [discriminate |].
    destruct (String.eqb t "snapshot"); [discriminate |].
    now injection Hrow as <-.
Qed.

Lemma filesystems_skips_first_witness :
  fst (filesystems (Entity Filesystem "tank" None) (Some 1)
         (mkWorld (Answers.always (Ok Answers.listing)) []))
  = Ok [Entity Filesystem "tank/data" None; Entity Volume "tank/vol" None].
Proof.
  apply (proj1 (proj2 (proj2 (filesystems_skips_first
                                (Entity Filesystem "tank" None) (Some 1)
                                ["-d"; "1"]
                                (mkWorld (Answers.always (Ok Answers.listing)) [])
                                eq_refl ltac:(discriminate))))
           ["tank"; "filesystem"]
           [["tank/data"; "filesystem"]; ["tank/vol"; "volume"]]
           (Entity Filesystem "tank" None));
    reflexivity.
Defined.

(** ** Holds *)

Lemma second_fields_ok (out : table) : forall tags,
  ZFSSnapshot.second_fields out = Ok tags ->
  Forall2 (fun row tag => row !! 1%nat = Some tag) out tags.
Proof.
  induction out as [| row rest IH]; intros tags; cbn [ZFSSnapshot.second_fields].
  - intros [= <-]. constructor.
  - destruct row as [| f0 [| tag more]]; try discriminate.
    destruct (ZFSSnapshot.second_fields rest) as [tags' |]; [| discriminate].
    intros [= <-]. constructor; [reflexivity | now apply IH].
Qed.

Lemma second_fields_total (out : table) :
  (exists tags, ZFSSnapshot.second_fields out = Ok tags)
  <-> Forall (fun row => (2 <= length row)%nat) out.
Proof.
  induction out as [| row rest IH]; cbn [ZFSSnapshot.second_fields].
  - split; [constructor | eauto].
  - destruct row as [| f0 [| tag more]].
    + split; [intros [? [=]] | intros H; inversion H; subst; cbn in *; lia].
    + split; [intros [? [=]] | intros H; inversion H; subst; cbn in *; lia].
    + destruct (ZFSSnapshot.second_fields rest) as [tags' | e].
      * split; [| eauto]. intros _. constructor; [cbn; lia |].
        apply IH. eauto.
      * split; [intros [? [=]] |]. intros H. inversion H; subst.
        destruct (proj2 IH) as [? [=]]. assumption.
Qed.

(** X18: [holds] runs one command and returns the second field of
    every line of the answer, in order; it succeeds exactly when every
    line has at least two fields, and raises [IndexError] otherwise;
    an error of the tool is passed on. *)
Theorem holds_returns_tags (self : entity) (w : World) :
  let c := Call (ssh self) ["zfs"; "holds"; "-H"; name self] in
  snd (ZFSSnapshot.holds self w) = after w c
  /\ (forall e, oracle w (log w) c = Raise e ->
        fst (ZFSSnapshot.holds self w) = Raise e)
  /\ (forall out, oracle w (log w) c = Ok out ->
        (forall tags, fst (ZFSSnapshot.holds self w) = Ok tags ->
           Forall2 (fun row tag => row !! 1%nat = Some tag) out tags)
        /\ ((exists tags, fst (ZFSSnapshot.holds self w) = Ok tags)
            <-> Forall (fun row => (2 <= length row)%nat) out)
        /\ (forall e, fst (ZFSSnapshot.holds self w) = Raise e -> e = IndexError)).
Proof.
  cbv zeta. unfold ZFSSnapshot.holds, bind, lift, check_output, after.
  destruct (oracle w (log w) _) as [out | e]; cbn [fst snd].
  - split; [reflexivity |]. split; [discriminate |].
    intros out' [= <-]. split; [apply second_fields_ok |].
    split; [apply second_fields_total |].
    clear. induction out as [| row rest IH]; intros e;
      cbn [ZFSSnapshot.second_fields]; [discriminate |].
    destruct row as [| f0 [| tag more]]; try now intros [= <-].
    destruct (ZFSSnapshot.second_fields rest); [discriminate |].
    intros [= <-]. now apply IH.
  - split; [reflexivity |]. split; [now intros e' [= <-] | discriminate].
Qed.

Example holds_of_two_tags :
  fst (ZFSSnapshot.holds Sample.snap
         (mkWorld (Answers.always
                     (Ok [["tank/data@monday"; "keep"; "Mon Jan  1 00:00 2024"];
                          ["tank/data@monday"; "backup"; "Tue Jan  2 00:00 2024"]]))
            []))
  = Ok ["keep"; "backup"].
Proof. reflexivity. Qed.

(** ** Creating datasets *)

(** X19: [create] refuses a type other than ['volume'] and
    ['filesystem'] with [ValueError] before any command is issued.
    For the two types it issues one command, whose last word is the
    name; an error of the tool is passed on, and otherwise the handle
    returned has the given name and endpoint and is a volume exactly
    for the type ['volume'], without the tool being asked for the
    type. *)
Theorem create_outcome
    (n : string) (endpoint : option SSH) (type : string) (sparse : bool)
    (volsize : string) (volblocksize recordsize : option string)
    (props : list (string * string)) (force_parent : bool) (w : World) :
  let run := create n endpoint type sparse volsize volblocksize recordsize
               props force_parent w in
  (type <> "volume" -> type <> "filesystem" -> run = (Raise ValueError, w))
  /\ (type = "volume" \/ type = "filesystem" ->
      exists words,
        let c := Call endpoint (words ++ [n]) in
        snd run = after w c
        /\ (forall e, oracle w (log w) c = Raise e -> fst run = Raise e)
        /\ (forall out, oracle w (log w) c = Ok out ->
              fst run = Ok (Entity (if bool_decide (type = "volume")
                                    then Volume else Filesystem) n endpoint))).
Proof.
  cbv zeta. unfold create, bind, ret, raise, check_output, after. split.
  - intros Hv Hf.
    now rewrite (bool_decide_eq_false_2 _ Hv), (bool_decide_eq_false_2 _ Hf).
  - intros [-> | ->];
      [rewrite !(bool_decide_eq_true_2 ("volume" = "volume") eq_refl)
      | rewrite !(bool_decide_eq_false_2 ("filesystem" = "volume"))
          by discriminate;
        rewrite !(bool_decide_eq_true_2 ("filesystem" = "filesystem") eq_refl)];
      cbn [negb]; eexists; cbv zeta;
      (split; [now destruct (oracle w (log w) _) |]);
      (split; [intros e' -> | intros out' ->]; reflexivity).
Qed.

Lemma create_outcome_witness :
  create "tank/new" None "snapshot" true "None" (Some "8k") (Some "128k") [] false
    Sample.start
  = (Raise ValueError, Sample.start).
Proof.
  apply (proj1 (create_outcome "tank/new" None "snapshot" true "None"
                  (Some "8k") (Some "128k") [] false Sample.start));
    discriminate.
Defined.

Example create_volume_without_size :
  map call_argv
    (log (snd (create "tank/vol2" None "volume" true "None" (Some "8k")
                 (Some "128k") [("compression", "lz4")] true
                 (mkWorld (Answers.always (Ok [])) []))))
  = [["zfs"; "create"; "-V"; "None"; "-s"; "-p"; "-o"; "compression=lz4";
      "-o"; "volblocksize=8k"; "tank/vol2"]].
Proof. reflexivity. Qed.

Example create_keeps_callers_recordsize :
  map call_argv
    (log (snd (create "tank/fs2" None "filesystem" true "None" (Some "8k")
                 (Some "128k") [("recordsize", "1M")] false
                 (mkWorld (Answers.always (Ok [])) []))))
  = [["zfs"; "create"; "-o"; "recordsize=1M"; "tank/fs2"]].
Proof. reflexivity. Qed.

(** ** The factory [open] *)

Lemma kind_of_type_name (k : kind) : kind_of_type (type_name k) = Ok k.
Proof. now destruct k. Qed.

Lemma kind_of_type_inv (t : string) (k : kind) :
  kind_of_type t = Ok k -> t = type_name k.
Proof.
  unfold kind_of_type.
  destruct (String.eqb t "volume") eqn:Hv;
    [apply String.eqb_eq in Hv; now intros [= <-] |].
  destruct (String.eqb t "filesystem") eqn:Hf;
    [apply String.eqb_eq in Hf; now intros [= <-] |].
  destruct (String.eqb t "snapshot") eqn:Hs; [| discriminate].
  apply String.eqb_eq in Hs. now intros [= <-].
Qed.

(** X8: [open] with a type never runs the tool: it returns the handle
    of the class the type names, the three type names and the three
    classes corresponding one to one, and raises [ValueError] for any
    other text.  [open] without a type runs one query for the type:
    a short line gives [IndexError], an answer that does not name the
    dataset or has no line for its type gives [KeyError], and
    otherwise the type of the last such line decides as before. *)
Theorem open_answer (n : string) (endpoint : option SSH) (w : World) :
  let by_type t :=
    match kind_of_type t with
    | Ok k => Ok (Entity k n endpoint)
    | Raise e => Raise e
    end in
  let c := findprops_call (Some n) endpoint ["-d"; "0"] ["type"] [] [] in
  (forall t, open n endpoint (Some t) w = (by_type t, w))
  /\ (forall k, kind_of_type (type_name k) = Ok k)
  /\ (forall t, (forall k, t <> type_name k) -> kind_of_type t = Raise ValueError)
  /\ (forall e, oracle w (log w) c = Raise e ->
        open n endpoint None w = (Raise e, after w c))
  /\ (forall out, oracle w (log w) c = Ok out ->
        open n endpoint None w
        = (if negb (forallb has_four out) then Raise IndexError
           else if negb (names_dataset n out) then Raise KeyError
           else match last_line n "type" out with
                | None => Raise KeyError
                | Some (t, _) => by_type t
                end,
           after w c)).
Proof.
  cbv zeta. split; [| split; [| split; [| split]]].
  - intros t. unfold open, bind, ret, lift. now destruct (kind_of_type t).
  - apply kind_of_type_name.
  - intros t Ht. destruct (kind_of_type t) as [k |] eqn:Hk.
    + apply kind_of_type_inv in Hk. now apply Ht in Hk.
    + revert Hk. unfold kind_of_type.
      destruct (String.eqb t "volume"); [discriminate |].
      destruct (String.eqb t "filesystem"); [discriminate |].
      destruct (String.eqb t "snapshot"); [discriminate | now intros [= <-]].
  - intros e Hans.
    unfold open, findprops, bind, lift, check_output, after.
    cbn [depth_flags Z.leb Z.compare]. change (Py.str_int 0) with "0".
    unfold findprops_call in Hans. now rewrite Hans.
  - intros out Hans.
    unfold open, findprops, bind, lift, check_output, after.
    cbn [depth_flags Z.leb Z.compare]. change (Py.str_int 0) with "0".
    unfold findprops_call in Hans. rewrite Hans.
    unfold props_of_table.
    destruct (forallb has_four out) eqn:Hall; cbn [negb]; [| reflexivity].
    pose proof (named_fold out ∅ n Hall) as Hnamed.
    pose proof (prop_lookup_fold out ∅ n "type" Hall) as Hlook.
    unfold prop_lookup in Hlook. rewrite lookup_empty in Hnamed, Hlook.
    destruct (fold_left add_row out ∅ !! n) as [props |] eqn:Hd.
    + assert (Hn : names_dataset n out = true).
      { destruct (proj1 Hnamed (ex_intro _ props eq_refl)) as [H | [? [=]]];
          exact H. }
      rewrite Hn. cbn [negb or_raise]. rewrite Hlook.
      destruct (last_line n "type" out) as [[t src] |]; [| reflexivity].
      cbn [or_raise]. unfold ret. cbn [fst].
      now destruct (kind_of_type t).
    + destruct (names_dataset n out) eqn:Hn; [| reflexivity].
      destruct (proj2 Hnamed (or_introl eq_refl)) as [? [=]].
Qed.

Example open_unknown_dataset :
  fst (open "tank/none" None None
         (mkWorld (Answers.always (Ok Answers.properties)) []))
  = Raise KeyError
  /\ fst (open "tank" None (Some "bookmark") Sample.start) = Raise ValueError
  /\ open "tank/data@monday" None None Sample.start
     = (Ok Sample.snap,
        mkWorld Sample.pool [Call None (Sample.get0 "type" "tank/data@monday")]).
Proof. repeat split. Qed.
